(** * dm-data-schema-randomizer: a shallow embedding of [main.py]

    The program reads a CSV file into a pandas DataFrame, renames its
    columns to [column_0 .. column_{n-1}] in shuffled order, shuffles the
    column order, converts every column to a randomly chosen other type and
    writes the table back.  This file embeds the three stages and the
    top-level driver as Rocq functions and proves the properties the
    specification states about them.

    Conventions: the module-level generator of Python's [random] is passed
    explicitly as a state; a function that can raise returns a sum whose
    left side is the exception; every [logging] call appends one event. *)

From Stdlib Require Import ZArith Ascii String Floats.SpecFloat.
From stdpp Require Import base decidable list strings pretty gmap.

Local Open Scope string_scope.
Local Open Scope Z_scope.
Local Open Scope nat_scope.
Local Open Scope list_scope.

(** ** Python's [random] module *)

(** The generator behind [random.seed], [random.shuffle] and
    [random.choice].  [rng_below g n] is [Random._randbelow(n)]: for a
    positive [n] it returns a number below [n] and the next state. *)
Class RandomSource (G : Type) := {
  rng_seed : Z → G;
  rng_below : G → nat → nat * G;
  rng_below_lt : ∀ g n, 0 < n → (rng_below g n).1 < n
}.

Module PyRandom.
Section with_generator.
Context {G : Type} `{!RandomSource G}.
Context {A : Type}.

(** [x[i], x[j] = x[j], x[i]]; both indices are in range whenever
    [shuffle] performs the exchange. *)
Definition swap (x : list A) (i j : nat) : list A :=
  match x !! i, x !! j with
  | Some xi, Some xj => <[j:=xi]> (<[i:=xj]> x)
  | _, _ => x
  end.

(** The loop of [random.shuffle]:
    [for i in reversed(range(1, len(x))): j = randbelow(i + 1); swap].
    [shuffle_from i x g] runs the iterations [i, i-1, .., 1]. *)
Fixpoint shuffle_from (i : nat) (x : list A) (g : G) : list A * G :=
  match i with
  | 0 => (x, g)
  | S i' =>
      let '(j, g') := rng_below g (S i) in
      shuffle_from i' (swap x i j) g'
  end.

Definition shuffle (x : list A) (g : G) : list A * G :=
  shuffle_from (length x - 1) x g.

(** [random.choice(seq)] is [seq[randbelow(len(seq))]]; [None] stands for
    the [IndexError] of an empty sequence. *)
Definition choice (seq : list A) (g : G) : option A * G :=
  match seq with
  | [] => (None, g)
  | _ => let '(j, g') := rng_below g (length seq) in (seq !! j, g')
  end.
End with_generator.
End PyRandom.

(** [if seed: random.seed(seed)]: [None] and [0] are both falsy. *)
Definition truthy (seed : option Z) : bool :=
  match seed with
  | Some s => negb (Z.eqb s 0)
  | None => false
  end.

Definition reseed {G : Type} `{!RandomSource G} (seed : option Z) (g : G) : G :=
  if truthy seed then from_option rng_seed g seed else g.

(** ** Type objects and their comparison *)

(** The dtypes a column can carry: the numpy dtypes [pd.read_csv] infers
    by default ([int64], [float64], [bool], [object]), any other numpy
    dtype under its name (["uint64"], ["datetime64[ns]"], ...), and the
    pandas extension types [category] and [string]. *)
Inductive dtype :=
  | dt_int64 | dt_float64 | dt_bool | dt_object
  | dt_other (name : string)
  | dt_category | dt_string.

Global Instance dtype_eq_dec : EqDecision dtype.
Proof. solve_decision. Defined.

(** The objects [change_data_types] compares with [==]: the scalar classes
    [np.int64] and [np.float64], string literals, and dtype instances. *)
Inductive pyobj :=
  | np_int64
  | np_float64
  | py_str (s : string)
  | py_dtype (d : dtype).

Global Instance pyobj_eq_dec : EqDecision pyobj.
Proof. solve_decision. Defined.

(** [np.dtype(s)] for the usual spellings of the four dtypes above.
    Neither ['string'] nor ['category'] names a numpy dtype. *)
Definition np_dtype (s : string) : option dtype :=
  if bool_decide (s ∈ ["int64"; "i8"]) then Some dt_int64
  else if bool_decide (s ∈ ["float64"; "f8"; "d"; "float"]) then Some dt_float64
  else if bool_decide (s ∈ ["bool"; "?"]) then Some dt_bool
  else if bool_decide (s ∈ ["object"; "O"]) then Some dt_object
  else None.

(** [dtype == 'name']: a numpy dtype converts the string with [np.dtype]
    and compares (a name numpy does not understand compares unequal); a
    pandas extension dtype compares the string with its own name. *)
Definition dtype_eq_str (d : dtype) (s : string) : bool :=
  match d with
  | dt_category => bool_decide (s = "category")
  | dt_string => bool_decide (s = "string")
  | dt_other name => bool_decide (s = name)
  | _ => bool_decide (np_dtype s = Some d)
  end.

(** [a == b].  A numpy dtype equals the scalar class it is the dtype of;
    a class never equals a string. *)
Definition py_eq (a b : pyobj) : bool :=
  match a, b with
  | np_int64, np_int64 | np_float64, np_float64 => true
  | py_str s, py_str t => bool_decide (s = t)
  | py_dtype d, py_dtype e => bool_decide (d = e)
  | py_dtype d, np_int64 | np_int64, py_dtype d => bool_decide (d = dt_int64)
  | py_dtype d, np_float64 | np_float64, py_dtype d => bool_decide (d = dt_float64)
  | py_dtype d, py_str s | py_str s, py_dtype d => dtype_eq_str d s
  | _, _ => false
  end.

(** [x in xs] *)
Definition py_in (x : pyobj) (xs : list pyobj) : bool :=
  existsb (py_eq x) xs.

(** [xs.remove(x)]: drops the first element equal to [x]; [None] is the
    [ValueError] raised when there is none. *)
Fixpoint list_remove (x : pyobj) (xs : list pyobj) : option (list pyobj) :=
  match xs with
  | [] => None
  | y :: ys =>
      if py_eq y x then Some ys
      else option_map (cons y) (list_remove x ys)
  end.

(** ** The candidate target types (lines 76-92 of [change_data_types]) *)

Definition numeric_types : list pyobj := [np_int64; np_float64].

Definition possible_types (original_type : pyobj) : list pyobj :=
  let possible_types := [np_int64; np_float64; py_str "string"; py_str "category"] in
  let possible_types :=
    if py_in original_type numeric_types
    then List.filter (λ t, negb (py_in t numeric_types)) possible_types
    else possible_types in
  let possible_types :=
    if py_eq original_type (py_str "object")
    then List.filter (λ t, negb (py_eq t (py_str "category"))) possible_types
    else possible_types in
  match list_remove original_type possible_types with
  | Some remaining => remaining
  | None => possible_types
  end.

(** ** Tables *)

(** The values a cell can hold.  A float is an IEEE binary64 value in the
    representation of [SpecFloat]: zero, infinity, NaN or a finite number
    with sign, mantissa and exponent. *)
Inductive cell :=
  | VInt (z : Z)
  | VFloat (f : spec_float)
  | VStr (s : string)
  | VBool (b : bool).

Record Series := { s_dtype : dtype; s_values : list cell }.

(** A DataFrame: the length of its row index and its labelled columns in
    order.  pandas does not forbid two columns with one label. *)
Record DataFrame := { df_index : nat; df_columns : list (string * Series) }.

Definition labels (df : DataFrame) : list string := (df_columns df).*1.

Definition has_label (l : string) (c : string * Series) : bool :=
  bool_decide (c.1 = l).

(** [dict(pairs)]: the keys are inserted in order, so a later pair
    overrides an earlier one with the same key. *)
Definition py_dict (pairs : list (string * string)) : gmap string string :=
  foldl (λ m kv, <[kv.1 := kv.2]> m) ∅ pairs.

(** [df.rename(columns=mapper)]: every label found in [mapper] is
    replaced, the others stay; data and positions are kept. *)
Definition rename (df : DataFrame) (mapper : gmap string string) : DataFrame :=
  {| df_index := df_index df;
     df_columns := (λ c, (default c.1 (mapper !! c.1), c.2)) <$> df_columns df |}.

(** [df[columns]] for a list of labels: for each label in turn, every
    column carrying it. *)
Definition select (df : DataFrame) (columns : list string) : DataFrame :=
  {| df_index := df_index df;
     df_columns := flat_map (λ l, List.filter (has_label l) (df_columns df)) columns |}.

(** [df[col]] for one label: a Series when one column carries the label,
    a DataFrame of the columns that carry it when several do; [None] is
    the [KeyError] of a label no column carries. *)
Definition getitem (df : DataFrame) (col : string) : option (Series + DataFrame) :=
  match List.filter (has_label col) (df_columns df) with
  | [] => None
  | [c] => Some (inl c.2)
  | cs => Some (inr {| df_index := df_index df; df_columns := cs |})
  end.

(** [df[col] = s] for an existing label. *)
Definition setitem (df : DataFrame) (col : string) (s : Series) : DataFrame :=
  {| df_index := df_index df;
     df_columns := (λ c, if has_label col c then (col, s) else c) <$> df_columns df |}.

(** A table as [pd.read_csv] builds it: distinct labels (repeated header
    names are made unique on load) and every column as long as the index. *)
Definition wf (df : DataFrame) : Prop :=
  NoDup (labels df) ∧
  Forall (λ c, length (s_values c.2) = df_index df) (df_columns df).

(** ** Numbers and the numeric conversions of pandas *)

(** What [pd.to_numeric] makes of one value: an integer or a float. *)
Inductive number :=
  | NInt (z : Z)
  | NFloat (f : spec_float).

(** The two text/number conversions the program leaves to its libraries:
    the numeric literal parser behind [pd.to_numeric] ([None]: the text is
    not a number) and [str] of a float. *)
Class NumberSyntax := {
  parse_number : string → option number;
  float_repr : spec_float → string
}.

Definition float_zero : spec_float := S754_zero false.

(** Integer to binary64, rounding to nearest even. *)
Definition float_of_Z (z : Z) : spec_float := binary_normalize 53 1024 z 0 false.

Definition is_nan (f : spec_float) : bool :=
  match f with S754_nan => true | _ => false end.

Definition is_finite (f : spec_float) : bool :=
  match f with S754_zero _ | S754_finite _ _ _ => true | _ => false end.

Definition int64_min : Z := (- 2 ^ 63)%Z.
Definition int64_max : Z := (2 ^ 63 - 1)%Z.

Definition uint64_max : Z := (2 ^ 64 - 1)%Z.

Definition in_int64 (z : Z) : bool := ((int64_min <=? z) && (z <=? int64_max))%Z.

(** Does the integer fit one of the two 64-bit integer types of numpy,
    [int64] or [uint64]? *)
Definition in_64_bits (z : Z) : bool := ((int64_min <=? z) && (z <=? uint64_max))%Z.

(** Two's complement wrap-around to 64 bits. *)
Definition wrap_int64 (z : Z) : Z := ((z + 2 ^ 63) mod 2 ^ 64 - 2 ^ 63)%Z.

(** A finite float cut towards zero. *)
Definition trunc (f : spec_float) : Z :=
  match f with
  | S754_finite s m e =>
      let a := Z.shiftl (Z.pos m) e in if s then (- a)%Z else a
  | _ => 0%Z
  end.

(** The cast of a finite binary64 to int64; a value outside the range
    gives the minimum, as the x86-64 conversion does. *)
Definition float_to_int64 (f : spec_float) : Z :=
  let t := trunc f in if in_int64 t then t else int64_min.

Definition number_to_float (n : number) : spec_float :=
  match n with NInt z => float_of_Z z | NFloat f => f end.

Definition number_is_int (n : number) : bool :=
  match n with NInt _ => true | NFloat _ => false end.

Definition number_is_nan (n : number) : bool :=
  match n with NInt _ => false | NFloat f => is_nan f end.

(** An integer that only [uint64] holds, and a negative one, which only
    [int64] holds. *)
Definition number_is_uint (n : number) : bool :=
  match n with NInt z => (int64_max <? z)%Z | NFloat _ => false end.

Definition number_is_negative (n : number) : bool :=
  match n with NInt z => (z <? 0)%Z | NFloat _ => false end.

(** An integer outside both 64-bit types is read as the nearest float. *)
Definition narrow (n : number) : number :=
  match n with
  | NInt z => if in_64_bits z then n else NFloat (float_of_Z z)
  | NFloat _ => n
  end.

(** A Python int in a column of objects that no float is near:
    [pd.to_numeric] stores every value as a float first, and for such an
    int that raises [OverflowError] ("int too large to convert to
    float"). *)
Definition too_large (c : cell) : bool :=
  match c with
  | VInt z => negb (is_finite (float_of_Z z))
  | _ => false
  end.

Section conversions.
Context `{!NumberSyntax}.

(** One value under [errors='coerce']: text that is not a number
    becomes NaN, and an integer, a Python int or an integer literal, is
    kept as an integer only within 64 bits. *)
Definition coerce_cell (c : cell) : number :=
  match c with
  | VInt z => narrow (NInt z)
  | VFloat f => NFloat f
  | VBool b => NInt (Z.b2z b)
  | VStr s => narrow (default (NFloat S754_nan) (parse_number s))
  end.

(** The result of [pd.to_numeric] is an integer column ([int64] or
    [uint64]) when every value is an integer within 64 bits and one of
    the two types holds them all; any other column is a float column. *)
Definition integer_column (ns : list number) : bool :=
  forallb number_is_int ns &&
  negb (existsb number_is_uint ns && existsb number_is_negative ns).

(** [pd.to_numeric(values, errors='coerce')]; [None] is the
    [OverflowError] of a Python int too large for a float, which
    [errors='coerce'] does not cover. *)
Definition to_numeric (values : list cell) : option (list number) :=
  if existsb too_large values then None
  else
    let ns := coerce_cell <$> values in
    Some (if integer_column ns then ns
          else (λ n, NFloat (number_to_float n)) <$> ns).

(** [.fillna(value)]: NaN occurs in float columns only, where the fill
    value is stored as a float. *)
Definition fill_cell (value : number) (n : number) : number :=
  if number_is_nan n then NFloat (number_to_float value) else n.

Definition fillna (value : number) (ns : list number) : list number :=
  fill_cell value <$> ns.

(** [.astype(np.int64)]: pandas refuses a column holding an infinity or
    a NaN ("Cannot convert non-finite values (NA or inf) to integer");
    [None] is that exception.  An integer of a [uint64] column wraps
    around, a finite float is cut towards zero. *)
Definition number_to_int64 (n : number) : option Z :=
  match n with
  | NInt z => Some (wrap_int64 z)
  | NFloat f => if is_finite f then Some (float_to_int64 f) else None
  end.

Definition astype_int64 (ns : list number) : option (list Z) :=
  mapM number_to_int64 ns.

(** [.astype(np.float64)] *)
Definition astype_float64 (ns : list number) : list spec_float :=
  number_to_float <$> ns.

(** [str(v)] *)
Definition py_repr (c : cell) : string :=
  match c with
  | VInt z => pretty z
  | VFloat f => float_repr f
  | VStr s => s
  | VBool b => if b then "True" else "False"
  end.
End conversions.

(** ** Exceptions and logging *)

Inductive exn_class :=
  | BaseException | KeyboardInterrupt | Exception
  | OSError | FileNotFoundError | PermissionError
  | ValueError | ParserError | IntCastingNaNError
  | ArithmeticError | OverflowError
  | AttributeError | LookupError | IndexError | KeyError.

Global Instance exn_class_eq_dec : EqDecision exn_class.
Proof. solve_decision. Defined.

(** The direct base class. *)
Definition base (c : exn_class) : option exn_class :=
  match c with
  | BaseException => None
  | KeyboardInterrupt => Some BaseException
  | Exception => Some BaseException
  | OSError | ValueError | ArithmeticError | AttributeError | LookupError =>
      Some Exception
  | OverflowError => Some ArithmeticError
  | IndexError | KeyError => Some LookupError
  | FileNotFoundError | PermissionError => Some OSError
  | ParserError | IntCastingNaNError => Some ValueError
  end.

(** The class and its ancestors; the hierarchy is four levels deep. *)
Fixpoint bases_upto (n : nat) (c : exn_class) : list exn_class :=
  c :: match n, base c with
       | S n', Some b => bases_upto n' b
       | _, _ => []
       end.

Definition bases (c : exn_class) : list exn_class := bases_upto 3 c.

Record exn := { exn_type : exn_class; exn_msg : string }.

(** [except cls]: does the clause catch [e]? *)
Definition isinstance (e : exn) (cls : exn_class) : bool :=
  bool_decide (cls ∈ bases (exn_type e)).

Inductive level := INFO | WARNING | ERROR.

Global Instance level_eq_dec : EqDecision level.
Proof. solve_decision. Defined.

(** One constructor per [logging] call of the program. *)
Inductive event :=
  | ReadOk (path : string)
  | Converted (col : string) (original_type : dtype) (new_type : pyobj)
  | NoValidTypes (col : string)
  | ConvertFailed (col : string) (original_type : dtype) (new_type : pyobj) (e : exn)
  | WroteOk (path : string)
  | Failed (e : exn)
  | Unexpected (e : exn).

Definition level_of (ev : event) : level :=
  match ev with
  | ReadOk _ | Converted _ _ _ | WroteOk _ => INFO
  | NoValidTypes _ => WARNING
  | ConvertFailed _ _ _ _ | Failed _ | Unexpected _ => ERROR
  end.

(** ** The three randomization stages *)

Section stages.
Context {G : Type} `{!RandomSource G} `{!NumberSyntax}.

(** [f"column_{i}"] *)
Definition column_name (i : nat) : string := "column_" +:+ pretty i.

Definition randomize_column_names (df : DataFrame) (seed : option Z) (g : G)
  : DataFrame * G :=
  let g := reseed seed g in
  let new_names := column_name <$> seq 0 (length (labels df)) in
  let '(new_names, g) := PyRandom.shuffle new_names g in
  (rename df (py_dict (zip (labels df) new_names)), g).

Definition reorder_columns (df : DataFrame) (seed : option Z) (g : G)
  : DataFrame * G :=
  let g := reseed seed g in
  let columns := labels df in
  let '(columns, g) := PyRandom.shuffle columns g in
  (select df columns, g).

(** The two exceptions of the numeric conversions. *)
Definition overflow_error : exn :=
  {| exn_type := OverflowError; exn_msg := "int too large to convert to float" |}.

Definition int_casting_error : exn :=
  {| exn_type := IntCastingNaNError;
     exn_msg := "Cannot convert non-finite values (NA or inf) to integer" |}.

(** The [if]/[elif] chain of lines 101-108; [inl] is an exception raised
    by the conversion: [pd.to_numeric] raises in both numeric branches,
    the integer cast in the first. *)
Definition convert (new_type : pyobj) (s : Series) : exn + Series :=
  if py_eq new_type np_int64 then
    match to_numeric (s_values s) with
    | None => inl overflow_error
    | Some ns =>
        match astype_int64 (fillna (NInt 0) ns) with
        | Some zs => inr {| s_dtype := dt_int64; s_values := VInt <$> zs |}
        | None => inl int_casting_error
        end
    end
  else if py_eq new_type np_float64 then
    match to_numeric (s_values s) with
    | None => inl overflow_error
    | Some ns =>
        inr {| s_dtype := dt_float64;
               s_values := VFloat <$> astype_float64 (fillna (NFloat float_zero) ns) |}
    end
  else if py_eq new_type (py_str "string") then
    inr {| s_dtype := dt_object; s_values := (λ v, VStr (py_repr v)) <$> s_values s |}
  else if py_eq new_type (py_str "category") then
    inr {| s_dtype := dt_category; s_values := s_values s |}
  else inr s.

(** The state of the loop: the table, the generator and the log. *)
Definition loop_state : Type := DataFrame * G * list event.

(** One iteration of [for col in df.columns].  Reading [.dtype] of
    [df[col]] raises when the label is carried by several columns: a
    DataFrame has no such attribute. *)
Definition change_column (col : string) (st : loop_state)
  : exn * list event + loop_state :=
  let '(df, g, log) := st in
  match getitem df col with
  | None => inl ({| exn_type := KeyError; exn_msg := col |}, log)
  | Some (inr _) =>
      inl ({| exn_type := AttributeError;
              exn_msg := "'DataFrame' object has no attribute 'dtype'" |}, log)
  | Some (inl s) =>
      let original_type := s_dtype s in
      let possible_types := possible_types (py_dtype original_type) in
      if bool_decide (possible_types = []) then
        inr (df, g, log ++ [NoValidTypes col])
      else
        match PyRandom.choice possible_types g with
        | (None, g) =>
            inl ({| exn_type := IndexError; exn_msg := "list index out of range" |}, log)
        | (Some new_type, g) =>
            match convert new_type s with
            | inr s' =>
                inr (setitem df col s', g,
                     log ++ [Converted col original_type new_type])
            | inl e =>
                inr (df, g, log ++ [ConvertFailed col original_type new_type e])
            end
        end
  end.

Fixpoint change_columns (cols : list string) (st : loop_state)
  : exn * list event + loop_state :=
  match cols with
  | [] => inr st
  | col :: cols =>
      match change_column col st with
      | inl err => inl err
      | inr st => change_columns cols st
      end
  end.

Definition change_data_types (df : DataFrame) (seed : option Z) (g : G)
  (log : list event) : exn * list event + loop_state :=
  let g := reseed seed g in
  change_columns (labels df) (df, g, log).
End stages.

(** ** Files and the top-level driver *)

(** A path holds a readable file, something that cannot be opened (no
    permission, a directory), or a link whose target does not exist:
    opening that one finds no file. *)
Inductive node :=
  | File (content : string)
  | Locked
  | Dangling.

(** The file system, and the paths at which no file can be created (the
    empty path, a path in a missing or read-only directory, a link to
    such a path). *)
Record world := { fs : gmap string node; unwritable : gset string }.

(** The CSV reader and writer of pandas on the text of a file; [None] is a
    [ParserError]. *)
Class CsvFormat := {
  read_csv_text : string → option DataFrame;
  to_csv_text : DataFrame → string
}.

(** [argparse]'s namespace: [seed] is [None] without [--seed]. *)
Record Namespace := { input_file : string; output_file : string; seed : option Z }.

(** [s.lower()] on ASCII text. *)
Definition ascii_lower (a : Ascii.ascii) : Ascii.ascii :=
  let n := Ascii.nat_of_ascii a in
  if (65 <=? n) && (n <=? 90) then Ascii.ascii_of_nat (n + 32) else a.

Fixpoint lower (s : string) : string :=
  match s with
  | EmptyString => EmptyString
  | String a s => String (ascii_lower a) (lower s)
  end.

(** [s.endswith(suffix)] *)
Definition endswith (s suffix : string) : bool :=
  let n := String.length s in
  let m := String.length suffix in
  (m <=? n) && bool_decide (String.substring (n - m) m s = suffix).

Definition validate_input (input_file : string) (w : world) : exn + unit :=
  match fs w !! input_file with
  | None | Some Dangling =>
      inl {| exn_type := FileNotFoundError;
             exn_msg := "Input file not found: " +:+ input_file |}
  | Some Locked =>
      inl {| exn_type := Exception; exn_msg := "Error accessing input file" |}
  | Some (File _) =>
      if negb (endswith (lower input_file) ".csv") then
        inl {| exn_type := ValueError; exn_msg := "Input file must be a CSV file." |}
      else inr ()
  end.

Section driver.
Context {G : Type} `{!RandomSource G} `{!NumberSyntax} `{!CsvFormat}.

(** [pd.read_csv(path)] *)
Definition read_csv (path : string) (w : world) : exn + DataFrame :=
  match fs w !! path with
  | Some (File text) =>
      match read_csv_text text with
      | Some df => inr df
      | None => inl {| exn_type := ParserError; exn_msg := "Error tokenizing data" |}
      end
  | Some Locked => inl {| exn_type := PermissionError; exn_msg := path |}
  | None | Some Dangling => inl {| exn_type := FileNotFoundError; exn_msg := path |}
  end.

(** Where no file can be created, [open] reports the empty path and the
    link without a target as [FileNotFoundError] ("No such file or
    directory"). *)
Definition no_such_file (path : string) (w : world) : bool :=
  bool_decide (path = EmptyString) ||
  match fs w !! path with Some Dangling => true | _ => false end.

(** [df.to_csv(path, index=False)]: the file is written whole or not at
    all.  What cannot be opened raises [PermissionError]; where no file
    can be created the write raises [FileNotFoundError] or another
    [OSError]. *)
Definition to_csv (df : DataFrame) (path : string) (w : world) : exn + world :=
  match fs w !! path with
  | Some Locked => inl {| exn_type := PermissionError; exn_msg := path |}
  | _ =>
      if bool_decide (path ∈ unwritable w) then
        if no_such_file path w then
          inl {| exn_type := FileNotFoundError; exn_msg := path |}
        else inl {| exn_type := OSError; exn_msg := path |}
      else
        inr {| fs := <[path := File (to_csv_text df)]> (fs w);
               unwritable := unwritable w |}
  end.

(** Lines 156-158: the three stages in order, each given [args.seed]. *)
Definition apply_randomization (df : DataFrame) (seed : option Z) (g : G)
  (log : list event) : exn * list event + loop_state :=
  let '(df, g) := randomize_column_names df seed g in
  let '(df, g) := reorder_columns df seed g in
  change_data_types df seed g log.

(** The body of the [try] block of [main]. *)
Definition main_try (args : Namespace) (w : world) (g : G)
  : exn * list event + world * list event :=
  match validate_input (input_file args) w with
  | inl e => inl (e, [])
  | inr _ =>
      match read_csv (input_file args) w with
      | inl e => inl (e, [])
      | inr df =>
          let log := [ReadOk (input_file args)] in
          match apply_randomization df (seed args) g log with
          | inl err => inl err
          | inr (df, _, log) =>
              match to_csv df (output_file args) w with
              | inl e => inl (e, log)
              | inr w' => inr (w', log ++ [WroteOk (output_file args)])
              end
          end
      end
  end.

(** What is left of a run: the files, the log and the exit status of
    the process. *)
Record finished := { end_world : world; end_log : list event; exit_status : Z }.

(** [main]: the [try] block and its three [except] clauses.  An
    exception no clause catches ends the process with status 1. *)
Definition main (args : Namespace) (w : world) (g : G) : finished :=
  match main_try args w g with
  | inr (w', log) => {| end_world := w'; end_log := log; exit_status := 0 |}
  | inl (e, log) =>
      if isinstance e FileNotFoundError then
        {| end_world := w; end_log := log ++ [Failed e]; exit_status := 0 |}
      else if isinstance e ValueError then
        {| end_world := w; end_log := log ++ [Failed e]; exit_status := 0 |}
      else if isinstance e Exception then
        {| end_world := w; end_log := log ++ [Unexpected e]; exit_status := 0 |}
      else
        {| end_world := w; end_log := log; exit_status := 1 |}
  end.
End driver.

(** ** Reference instances

    Small concrete instances of the three interfaces, used to run the
    definitions on examples. *)

Module Reference.
(** A linear congruential generator on 31 bits. *)
Definition lcg_next (g : Z) : Z := ((g * 1103515245 + 12345) mod 2 ^ 31)%Z.

Definition lcg_below (g : Z) (n : nat) : nat * Z :=
  (Z.to_nat (lcg_next g / 65536) mod n, lcg_next g).

#[export] Instance lcg : RandomSource Z := {|
  rng_seed := λ s, (s mod 2 ^ 31)%Z;
  rng_below := lcg_below;
  rng_below_lt := λ g n Hn,
    Nat.mod_upper_bound _ n (proj2 (Nat.neq_0_lt_0 n) Hn)
|}.

(** Decimal digits to a number, most significant first. *)
Definition digit (a : Ascii.ascii) : option Z :=
  let n := Ascii.nat_of_ascii a in
  if (48 <=? n) && (n <=? 57) then Some (Z.of_nat (n - 48)) else None.

Fixpoint digits (acc : Z) (s : string) : option Z :=
  match s with
  | EmptyString => Some acc
  | String a s => z ← digit a; digits (acc * 10 + z)%Z s
  end.

(** Integer literals with an optional minus sign, and the infinities. *)
Definition parse_literal (s : string) : option number :=
  if bool_decide (s = "inf") then Some (NFloat (S754_infinity false))
  else if bool_decide (s = "-inf") then Some (NFloat (S754_infinity true))
  else match s with
       | EmptyString => None
       | String "-"%char (String a s') => NInt ∘ Z.opp <$> digits 0 (String a s')
       | _ => NInt <$> digits 0 s
       end.

(** Floats with an integral value print as that integer and [.0]. *)
Definition repr_literal (f : spec_float) : string :=
  match f with
  | S754_nan => "nan"
  | S754_infinity s => if s then "-inf" else "inf"
  | S754_zero s => if s then "-0.0" else "0.0"
  | S754_finite _ _ _ => pretty (trunc f) +:+ ".0"
  end.

#[export] Instance literals : NumberSyntax := {|
  parse_number := parse_literal;
  float_repr := repr_literal
|}.

(** A plain comma-separated format: a header line, then one line per
    row; a column whose fields are all integer literals is an integer
    column, any other a text column. *)
Fixpoint split_on (sep : Ascii.ascii) (cur : string) (s : string) : list string :=
  match s with
  | EmptyString => [cur]
  | String a s =>
      if bool_decide (a = sep) then cur :: split_on sep "" s
      else split_on sep (cur +:+ String a "") s
  end.

Definition newline : Ascii.ascii := "010"%char.

Definition nonblank (l : string) : bool := negb (bool_decide (l = "")).

Definition infer_column (label : string) (fields : list string) : string * Series :=
  match mapM (digits 0) fields with
  | Some zs => (label, {| s_dtype := dt_int64; s_values := VInt <$> zs |})
  | None => (label, {| s_dtype := dt_object; s_values := VStr <$> fields |})
  end.

Definition read_table (text : string) : option DataFrame :=
  match List.filter nonblank (split_on newline "" text) with
  | [] => None
  | header :: rows =>
      let names := split_on ","%char "" header in
      let rows := split_on ","%char "" <$> rows in
      Some {| df_index := length rows;
              df_columns :=
                imap (λ j name, infer_column name ((λ r, default "" (r !! j)) <$> rows))
                     names |}
  end.

Definition join (sep : string) (parts : list string) : string :=
  match parts with
  | [] => ""
  | p :: ps => foldl (λ acc q, acc +:+ sep +:+ q) p ps
  end.

Definition unlines (ls : list string) : string :=
  foldr (λ l acc, l +:+ String newline acc) "" ls.

Definition write_table (df : DataFrame) : string :=
  let row i :=
    join "," ((λ c, from_option py_repr "" (s_values c.2 !! i)) <$> df_columns df) in
  unlines (join "," (labels df) :: (row <$> seq 0 (df_index df))).

#[export] Instance plain_csv : CsvFormat := {|
  read_csv_text := read_table;
  to_csv_text := write_table
|}.

(** A table with an integer column and a text column, two rows. *)
Definition table : DataFrame :=
  {| df_index := 2;
     df_columns :=
       [("id", {| s_dtype := dt_int64; s_values := [VInt 1; VInt 2] |});
        ("name", {| s_dtype := dt_object; s_values := [VStr "x"; VStr "y"] |})] |}.

Definition id_column : Series :=
  {| s_dtype := dt_int64; s_values := [VInt 1; VInt 2] |}.

Definition text_column : Series :=
  {| s_dtype := dt_object; s_values := [VStr "abc"; VStr "12"] |}.

Definition text_column_inf : Series :=
  {| s_dtype := dt_object; s_values := [VStr "abc"; VStr "inf"] |}.

Definition text_table_inf : DataFrame :=
  {| df_index := 2; df_columns := [("c", text_column_inf)] |}.

(** Columns of Python ints: one beyond every float, one beyond 64 bits,
    one that only [uint64] holds, and that one next to a negative. *)
Definition huge_column : Series :=
  {| s_dtype := dt_object; s_values := [VInt (2 ^ 2000); VInt 1] |}.

Definition wide_column : Series :=
  {| s_dtype := dt_object; s_values := [VInt (2 ^ 70); VInt 1] |}.

Definition unsigned_column : Series :=
  {| s_dtype := dt_object; s_values := [VInt (2 ^ 64 - 1); VInt 1] |}.

Definition mixed_sign_column : Series :=
  {| s_dtype := dt_object; s_values := [VInt (2 ^ 64 - 1); VInt (-1)] |}.

(** A table no CSV file loads to: two columns under one label. *)
Definition twins : DataFrame :=
  {| df_index := 1;
     df_columns := [("a", {| s_dtype := dt_int64; s_values := [VInt 1] |});
                    ("a", {| s_dtype := dt_int64; s_values := [VInt 2] |})] |}.

Definition no_files : world := {| fs := ∅; unwritable := ∅ |}.

(** The text of [table] as a file, and a world that holds it. *)
Definition table_text : string := unlines ["id,name"; "1,x"; "2,y"].

Definition one_file : world :=
  {| fs := {[ "in.csv" := File table_text ]}; unwritable := ∅ |}.

(** Worlds in which [out.csv] cannot be written: it is locked, it is in
    a directory that takes no file, it is a link to nowhere. *)
Definition locked_output : world :=
  {| fs := {[ "in.csv" := File table_text; "out.csv" := Locked ]}; unwritable := ∅ |}.

Definition full_directory : world :=
  {| fs := {[ "in.csv" := File table_text ]}; unwritable := {[ "out.csv" ]} |}.

Definition dangling_output : world :=
  {| fs := {[ "in.csv" := File table_text; "out.csv" := Dangling ]};
     unwritable := {[ "out.csv" ]} |}.

Definition missing_input : Namespace :=
  {| input_file := "missing.csv"; output_file := "out.csv"; seed := None |}.
End Reference.

(** ** Notions used in the statements *)

(** The labels the Renamer hands out, in shuffled order. *)
Definition new_names {G : Type} `{!RandomSource G}
    (df : DataFrame) (seed : option Z) (g : G) : list string :=
  (PyRandom.shuffle (column_name <$> seq 0 (length (labels df))) (reseed seed g)).1.

(** A value that fails to parse as a number: text the numeric parser
    rejects. *)
Definition unparsable `{!NumberSyntax} (v : cell) : bool :=
  match v with
  | VStr s => bool_decide (parse_number s = None)
  | _ => false
  end.

Definition infinite (n : number) : bool :=
  match n with
  | NFloat (S754_infinity _) => true
  | _ => false
  end.

(** What a conversion to [new_type] makes of one cell; [as_float] tells
    whether [pd.to_numeric] found the column to be a float column. *)
Definition numeric_cell `{!NumberSyntax} (as_float : bool) (v : cell) : number :=
  if as_float then NFloat (number_to_float (coerce_cell v)) else coerce_cell v.

Definition convert_cell `{!NumberSyntax} (new_type : pyobj) (as_float : bool)
    (v : cell) : cell :=
  if py_eq new_type np_int64 then
    VInt (default 0%Z (number_to_int64 (fill_cell (NInt 0) (numeric_cell as_float v))))
  else if py_eq new_type np_float64 then
    VFloat (number_to_float (fill_cell (NFloat float_zero) (numeric_cell as_float v)))
  else if py_eq new_type (py_str "string") then VStr (py_repr v)
  else v.

(** The maps on cells that conversions, one after another, can apply. *)
Inductive row_map `{!NumberSyntax} : (cell → cell) → Prop :=
  | row_map_id : row_map id
  | row_map_convert new_type as_float f :
      row_map f → row_map (convert_cell new_type as_float ∘ f).

(** The cells of [s'] are the images of the cells of [s], row by row,
    under such a map. *)
Definition pointwise `{!NumberSyntax} (s s' : Series) : Prop :=
  ∃ f : cell → cell, row_map f ∧ s_values s' = f <$> s_values s.

Definition is_skip (ev : event) : bool :=
  match ev with NoValidTypes _ => true | _ => false end.

(** Same labels in the same positions, every column the row-by-row image
    of the old one. *)
Definition columnwise `{!NumberSyntax} (df df' : DataFrame) : Prop :=
  df_index df' = df_index df ∧
  Forall2 (λ c c', c'.1 = c.1 ∧ pointwise c.2 c'.2) (df_columns df) (df_columns df').

(** What a stage may do to a table and keep its rows: the index keeps its
    length, every column is as long as the index, and every column is the
    row-by-row image of a column of the input. *)
Definition rows_kept `{!NumberSyntax} (df df' : DataFrame) : Prop :=
  df_index df' = df_index df ∧
  Forall (λ c', length (s_values c'.2) = df_index df ∧
                ∃ c, c ∈ df_columns df ∧ pointwise c.2 c'.2) (df_columns df').

(** ** Notions used in the further properties *)

(** What one iteration of the Type Coercer makes of a column [c]: a
    candidate type is drawn; either [c'] is the conversion of [c] and the
    event reports it, or the conversion raised, [c'] is [c] and the event
    reports the failure. *)
Definition processed `{!NumberSyntax} (c c' : string * Series) (ev : event) : Prop :=
  c'.1 = c.1 ∧
  ∃ t, t ∈ possible_types (py_dtype (s_dtype c.2)) ∧
       match convert t c.2 with
       | inr s' => c'.2 = s' ∧ ev = Converted c.1 (s_dtype c.2) t
       | inl e => c'.2 = c.2 ∧ ev = ConvertFailed c.1 (s_dtype c.2) t e
       end.

(** The order in which [random.shuffle], started from [random.seed(s)],
    leaves the positions [0 .. n-1]. *)
Definition seed_permutation {G : Type} `{!RandomSource G} (s : Z) (n : nat) : list nat :=
  (PyRandom.shuffle (seq 0 n) (rng_seed s)).1.

Definition is_text (v : cell) : bool :=
  match v with VStr _ => true | _ => false end.

(** The column named in a conversion event. *)
Definition event_column (ev : event) : option string :=
  match ev with
  | Converted col _ _ | ConvertFailed col _ _ _ | NoValidTypes col => Some col
  | _ => None
  end.

(** Further sample data. *)
Module Samples.
Definition name_column : Series :=
  {| s_dtype := dt_object; s_values := [VStr "x"; VStr "y"] |}.

(** What a file with a header line and no row loads to. *)
Definition header_only : DataFrame :=
  {| df_index := 0;
     df_columns := [("a", {| s_dtype := dt_object; s_values := [] |});
                    ("b", {| s_dtype := dt_object; s_values := [] |})] |}.

Definition one_column : DataFrame :=
  {| df_index := 2; df_columns := [("id", Reference.id_column)] |}.

Definition seeded_run : Namespace :=
  {| input_file := "in.csv"; output_file := "out.csv"; seed := Some 7%Z |}.
End Samples.

(** * Properties *)

(** ** The generator: shuffling permutes, choosing picks a member *)

Section random_facts.
Context {G : Type} `{!RandomSource G} {A : Type}.
Implicit Types (x : list A) (g : G).

Lemma swap_perm x i j : PyRandom.swap x i j ≡ₚ x.
Proof.
  unfold PyRandom.swap.
  destruct (x !! i) eqn:Hi, (x !! j) eqn:Hj; try done.
  by apply Permutation_insert_swap.
Qed.

Lemma shuffle_from_perm i x g : (PyRandom.shuffle_from i x g).1 ≡ₚ x.
Proof.
  revert x g. induction i as [|i IH]; intros x g; simpl; [done|].
  destruct (rng_below g (S (S i))) as [j g']. rewrite IH. apply swap_perm.
Qed.

Lemma shuffle_perm x g : (PyRandom.shuffle x g).1 ≡ₚ x.
Proof. apply shuffle_from_perm. Qed.

Lemma shuffle_length x g : length (PyRandom.shuffle x g).1 = length x.
Proof. by rewrite shuffle_perm. Qed.

(** On a non-empty sequence [choice] returns one of its elements. *)
Lemma choice_elem_of (seq : list A) g :
  seq ≠ [] → ∃ t g', PyRandom.choice seq g = (Some t, g') ∧ t ∈ seq.
Proof.
  intros Hne. unfold PyRandom.choice.
  destruct seq as [|a seq]; [done|].
  pose proof (rng_below_lt g (length (a :: seq))) as Hlt.
  destruct (rng_below g (length (a :: seq))) as [j g']; simpl in Hlt.
  destruct (lookup_lt_is_Some_2 (a :: seq) j) as [t Ht]; [simpl; lia|].
  exists t, g'. split; [by rewrite Ht|]. by eapply list_elem_of_lookup_2.
Qed.
End random_facts.

(** A seed of [0] is falsy: the generator is left as it was. *)
Lemma reseed_zero {G : Type} `{!RandomSource G} (g : G) : reseed (Some 0%Z) g = g.
Proof. reflexivity. Qed.

Lemma reseed_nonzero {G : Type} `{!RandomSource G} (s : Z) (g : G) :
  s ≠ 0%Z → reseed (Some s) g = rng_seed s.
Proof.
  intros Hs. unfold reseed, truthy.
  destruct (Z.eqb_spec s 0); [done|reflexivity].
Qed.

(** ** The candidate target types *)

Example possible_types_int64 :
  possible_types (py_dtype dt_int64) = [py_str "string"; py_str "category"].
Proof. reflexivity. Qed.

Example possible_types_float64 :
  possible_types (py_dtype dt_float64) = [py_str "string"; py_str "category"].
Proof. reflexivity. Qed.

Example possible_types_category :
  possible_types (py_dtype dt_category) = [np_int64; np_float64; py_str "string"].
Proof. reflexivity. Qed.

Example possible_types_bool :
  possible_types (py_dtype dt_bool)
  = [np_int64; np_float64; py_str "string"; py_str "category"].
Proof. reflexivity. Qed.

Example possible_types_uint64 :
  possible_types (py_dtype (dt_other "uint64"))
  = [np_int64; np_float64; py_str "string"; py_str "category"].
Proof. reflexivity. Qed.

(** A numeric dtype is one that [in numeric_types] accepts. *)
Lemma numeric_dtype_inv (d : dtype) :
  py_in (py_dtype d) numeric_types = true → d = dt_int64 ∨ d = dt_float64.
Proof. destruct d; simpl; intros; auto; discriminate. Qed.

(** C1, as the specification words it, fails: the candidate set of an
    integer column does not contain the floating-point type. *)
Lemma C1_other_numeric_type_excluded :
  py_in (py_dtype dt_int64) numeric_types = true ∧
  np_float64 ∉ possible_types (py_dtype dt_int64).
Proof.
  split; [reflexivity|].
  change (possible_types (py_dtype dt_int64)) with [py_str "string"; py_str "category"].
  rewrite !not_elem_of_cons. repeat split; [discriminate..|apply not_elem_of_nil].
Qed.

(** C1 (amended): for every column whose current type is numeric (integer
    or floating-point) the candidate set holds text and categorical only:
    both numeric types, the column's own and the other one, are excluded. *)
Theorem C1_numeric_candidates (d : dtype) :
  py_in (py_dtype d) numeric_types = true →
  possible_types (py_dtype d) = [py_str "string"; py_str "category"].
Proof. intros [-> | ->]%numeric_dtype_inv; reflexivity. Qed.

Lemma C1_numeric_candidates_witness :
  py_in (py_dtype dt_float64) numeric_types = true ∧
  possible_types (py_dtype dt_float64) = [py_str "string"; py_str "category"].
Proof. split; [reflexivity|]. apply (C1_numeric_candidates dt_float64). reflexivity. Defined.

(** ** Tables with distinct labels *)

Section table_facts.
Implicit Types (cs : list (string * Series)) (c : string * Series).
Implicit Types (df : DataFrame) (l : string).

Lemma filter_has_label_absent cs l :
  l ∉ cs.*1 → List.filter (has_label l) cs = [].
Proof.
  induction cs as [|c cs IH]; [done|].
  rewrite fmap_cons, not_elem_of_cons. intros [Hne Hnotin]. simpl.
  unfold has_label at 1. rewrite bool_decide_eq_false_2 by done. auto.
Qed.

(** Under distinct labels a label selects exactly its column. *)
Lemma filter_has_label_unique cs c :
  NoDup cs.*1 → c ∈ cs → List.filter (has_label c.1) cs = [c].
Proof.
  induction cs as [|c0 cs IH]; [by intros _ ?%elem_of_nil|].
  rewrite fmap_cons, NoDup_cons. intros [Hfresh Hnd] Hin. simpl.
  apply elem_of_cons in Hin as [->|Hin].
  - unfold has_label at 1. rewrite bool_decide_eq_true_2 by done.
    by rewrite filter_has_label_absent.
  - unfold has_label at 1. rewrite bool_decide_eq_false_2; [auto|].
    intros Heq. apply Hfresh. rewrite Heq. by apply list_elem_of_fmap_2.
Qed.

Lemma getitem_unique df c :
  NoDup (labels df) → c ∈ df_columns df → getitem df c.1 = Some (inl c.2).
Proof.
  intros Hnd Hin. unfold getitem.
  by rewrite (filter_has_label_unique _ c Hnd Hin).
Qed.

Lemma labels_setitem df col s : labels (setitem df col s) = labels df.
Proof.
  unfold labels, setitem; simpl. rewrite <-list_fmap_compose.
  apply list_fmap_ext. intros _ c _; simpl. unfold has_label.
  case_bool_decide; simpl; congruence.
Qed.

Lemma wf_setitem df col s :
  wf df → length (s_values s) = df_index df → wf (setitem df col s).
Proof.
  intros [Hnd Hlen] Hs. split; [by rewrite labels_setitem|].
  simpl. apply Forall_fmap. eapply Forall_impl; [exact Hlen|].
  intros c Hc; simpl. by destruct (has_label col c).
Qed.

(** The dictionary built from a list of pairs is the finite map of the
    reversed list: the last binding of a key is the one that stays. *)
Lemma py_dict_reverse (pairs : list (string * string)) :
  py_dict pairs = list_to_map (reverse pairs).
Proof.
  unfold py_dict. induction pairs as [|p pairs IH] using rev_ind; [done|].
  rewrite foldl_snoc, reverse_snoc, IH. by destruct p.
Qed.

Lemma py_dict_lookup (ks vs : list string) k v :
  NoDup ks → py_dict (zip ks vs) !! k = Some v ↔ (k, v) ∈ zip ks vs.
Proof.
  intros Hnd. rewrite py_dict_reverse, <-elem_of_list_to_map, elem_of_reverse; [done|].
  rewrite fmap_reverse, reverse_Permutation.
  eapply sublist_NoDup; [exact Hnd|].
  clear. revert vs. induction ks as [|a ks IH]; intros [|b vs]; simpl;
    try apply sublist_nil_l.
  apply sublist_skip, IH.
Qed.

(** Renaming through [dict(zip(old, new))] puts [new] in place of [old]
    position by position. *)
Lemma rename_zip (ks vs : list string) :
  NoDup ks → length ks = length vs →
  (λ k, default k (py_dict (zip ks vs) !! k)) <$> ks = vs.
Proof.
  intros Hnd Hlen. apply list_eq. intros i. rewrite list_lookup_fmap.
  destruct (ks !! i) as [k|] eqn:Hk; simpl.
  - destruct (lookup_lt_is_Some_2 vs i) as [v Hv].
    { rewrite <-Hlen. by eapply lookup_lt_Some. }
    rewrite Hv. f_equal.
    assert (py_dict (zip ks vs) !! k = Some v) as ->; [|done].
    apply py_dict_lookup; [done|].
    apply list_elem_of_lookup. exists i.
    apply lookup_zip_with_Some. eauto.
  - symmetry. apply lookup_ge_None. rewrite <-Hlen. by apply lookup_ge_None.
Qed.

Lemma labels_rename df (m : gmap string string) :
  labels (rename df m) = (λ k, default k (m !! k)) <$> labels df.
Proof. unfold labels, rename; simpl. by rewrite <-!list_fmap_compose. Qed.

Lemma data_rename df (m : gmap string string) :
  (df_columns (rename df m)).*2 = (df_columns df).*2.
Proof. unfold rename; simpl. by rewrite <-list_fmap_compose. Qed.

(** Selecting the labels of a table in their own order gives the table
    back. *)
Lemma select_own_labels pre cs :
  NoDup (pre ++ cs).*1 →
  flat_map (λ l, List.filter (has_label l) (pre ++ cs)) cs.*1 = cs.
Proof.
  revert pre. induction cs as [|c cs IH]; intros pre Hnd; [done|].
  rewrite fmap_cons; simpl.
  rewrite (filter_has_label_unique _ c Hnd) by set_solver.
  simpl. f_equal.
  specialize (IH (pre ++ [c])). rewrite <-(assoc_L (++)) in IH. by apply IH.
Qed.
End table_facts.

(** [f"column_{i}"] names different columns differently. *)
Lemma column_name_inj : Inj (=) (=) column_name.
Proof.
  intros i j Heq. unfold column_name in Heq. simpl in Heq.
  simplify_eq. by apply (inj pretty).
Qed.

Lemma NoDup_column_names (n : nat) : NoDup (column_name <$> seq 0 n).
Proof. apply NoDup_fmap_2; [apply column_name_inj|apply NoDup_seq]. Qed.

(** ** The Renamer and the Reorderer *)

Section rename_reorder.
Context {G : Type} `{!RandomSource G}.
Implicit Types (df : DataFrame) (g : G) (seed : option Z).

Lemma randomize_column_names_table df seed g :
  (randomize_column_names df seed g).1
  = rename df (py_dict (zip (labels df) (new_names df seed g))).
Proof.
  unfold randomize_column_names, new_names.
  by destruct (PyRandom.shuffle _ _).
Qed.

Lemma new_names_perm df seed g :
  new_names df seed g ≡ₚ column_name <$> seq 0 (length (labels df)).
Proof. apply shuffle_perm. Qed.

Lemma new_names_length df seed g :
  length (new_names df seed g) = length (labels df).
Proof. by rewrite new_names_perm, length_fmap, length_seq. Qed.

Lemma labels_randomize_column_names df seed g :
  NoDup (labels df) →
  labels (randomize_column_names df seed g).1 = new_names df seed g.
Proof.
  intros Hnd. rewrite randomize_column_names_table, labels_rename.
  apply rename_zip; [done|]. by rewrite new_names_length.
Qed.

Lemma reorder_columns_table df seed g :
  (reorder_columns df seed g).1
  = select df (PyRandom.shuffle (labels df) (reseed seed g)).1.
Proof. unfold reorder_columns. by destruct (PyRandom.shuffle _ _). Qed.

Lemma columns_reorder_columns df seed g :
  NoDup (labels df) →
  df_columns (reorder_columns df seed g).1 ≡ₚ df_columns df.
Proof.
  intros Hnd. rewrite reorder_columns_table. unfold select; simpl.
  etrans; [apply Permutation_flat_map, shuffle_perm|].
  pose proof (select_own_labels [] (df_columns df) Hnd) as Hown.
  simpl in Hown. unfold labels. by rewrite Hown.
Qed.
End rename_reorder.

(** C5: on a table with n columns (their labels distinct, as in every
    loaded table) the Renamer's names are exactly
    [column_0 .. column_{n-1}], all different; old labels and new labels
    correspond one to one through the renaming dictionary; every column
    keeps its position and its cells. *)
Theorem C5_rename_bijection {G : Type} `{!RandomSource G}
    (df : DataFrame) (seed : option Z) (g : G) :
  NoDup (labels df) →
  let df' := (randomize_column_names df seed g).1 in
  let n := length (df_columns df) in
  (∀ l, l ∈ labels df' ↔ ∃ i, i < n ∧ l = column_name i) ∧
  NoDup (labels df') ∧
  length (df_columns df') = n ∧
  (∃ m : gmap string string,
      labels df' = (λ l, default l (m !! l)) <$> labels df ∧
      (∀ l, l ∈ labels df ↔ is_Some (m !! l)) ∧
      (∀ l1 l2 l', m !! l1 = Some l' → m !! l2 = Some l' → l1 = l2)) ∧
  (df_columns df').*2 = (df_columns df).*2 ∧
  df_index df' = df_index df.
Proof.
  intros Hnd df' n.
  assert (length (labels df) = n) as Hn by apply length_fmap.
  assert (labels df' = new_names df seed g) as Hlabels
    by by apply labels_randomize_column_names.
  assert (NoDup (new_names df seed g)) as Hnew.
  { rewrite new_names_perm. apply NoDup_column_names. }
  repeat split.
  - rewrite Hlabels, new_names_perm, Hn.
    intros (i & -> & Hi%elem_of_seq)%list_elem_of_fmap. exists i. split; [lia|done].
  - rewrite Hlabels, new_names_perm, Hn. intros (i & Hi & ->).
    apply list_elem_of_fmap_2, elem_of_seq. lia.
  - by rewrite Hlabels.
  - rewrite <-(length_fmap fst). fold (labels df'). by rewrite Hlabels, new_names_length.
  - exists (py_dict (zip (labels df) (new_names df seed g))). repeat split.
    + unfold df'. by rewrite randomize_column_names_table, labels_rename.
    + intros [i Hi]%list_elem_of_lookup.
      destruct (lookup_lt_is_Some_2 (new_names df seed g) i) as [v Hv].
      { rewrite new_names_length. by eapply lookup_lt_Some. }
      exists v. apply py_dict_lookup; [done|].
      apply list_elem_of_lookup. exists i. apply lookup_zip_with_Some. eauto.
    + intros [v Hv]. apply py_dict_lookup in Hv; [|done].
      by apply elem_of_zip_l in Hv.
    + intros l1 l2 l' H1 H2.
      apply py_dict_lookup in H1; [|done]. apply py_dict_lookup in H2; [|done].
      apply list_elem_of_lookup in H1 as [i (a & b & Hab & Ha & Hb)%lookup_zip_with_Some].
      apply list_elem_of_lookup in H2 as [j (c & d & Hcd & Hc & Hd)%lookup_zip_with_Some].
      simplify_eq.
      assert (i = j) as -> by (eapply NoDup_lookup; eauto).
      congruence.
  - unfold df'. by rewrite randomize_column_names_table, data_rename.
  - unfold df'. by rewrite randomize_column_names_table.
Qed.

(** C6: on a table with distinct labels the Reorderer's columns are a
    permutation of the input's columns, each column with its own label and
    its own cells; nothing else changes. *)
Theorem C6_reorder_permutation {G : Type} `{!RandomSource G}
    (df : DataFrame) (seed : option Z) (g : G) :
  NoDup (labels df) →
  let df' := (reorder_columns df seed g).1 in
  df_columns df' ≡ₚ df_columns df ∧
  (∀ c, c ∈ df_columns df' ↔ c ∈ df_columns df) ∧
  length (df_columns df') = length (df_columns df) ∧
  df_index df' = df_index df.
Proof.
  intros Hnd df'.
  pose proof (columns_reorder_columns df seed g Hnd) as Hperm.
  fold df' in Hperm. repeat split.
  - done.
  - by rewrite Hperm.
  - by rewrite Hperm.
  - by rewrite Hperm.
  - unfold df'. by rewrite reorder_columns_table.
Qed.

(** ** The conversions *)

Section conversion_facts.
Context `{!NumberSyntax}.
Implicit Types (vs : list cell) (ns : list number) (s : Series).

Lemma wrap_int64_range z : in_int64 (wrap_int64 z) = true.
Proof.
  unfold in_int64, wrap_int64, int64_min, int64_max.
  pose proof (Z.mod_pos_bound (z + 2 ^ 63) (2 ^ 64)) as Hb.
  apply andb_true_iff; split; apply Z.leb_le; lia.
Qed.

Lemma float_to_int64_range f : in_int64 (float_to_int64 f) = true.
Proof. unfold float_to_int64. by destruct (in_int64 (trunc f)) eqn:E. Qed.

Lemma number_to_int64_range n z : number_to_int64 n = Some z → in_int64 z = true.
Proof.
  destruct n as [z'|f]; simpl.
  - intros [= <-]. apply wrap_int64_range.
  - destruct (is_finite f); [|done]. intros [= <-]. apply float_to_int64_range.
Qed.

(** [to_numeric] works value by value, up to the choice between an
    integer and a float column. *)
Lemma to_numeric_map vs ns :
  to_numeric vs = Some ns → ∃ as_float, ns = numeric_cell as_float <$> vs.
Proof.
  unfold to_numeric. destruct (existsb too_large vs); [done|].
  intros [= <-]. destruct (integer_column _); [by exists false|exists true].
  by rewrite <-list_fmap_compose.
Qed.

Lemma to_numeric_length vs ns : to_numeric vs = Some ns → length ns = length vs.
Proof. intros [b ->]%to_numeric_map. apply length_fmap. Qed.

(** [to_numeric] raises on a Python int too large for a float and on
    nothing else. *)
Lemma to_numeric_raises vs :
  to_numeric vs = None ↔ Exists (λ v, too_large v = true) vs.
Proof.
  unfold to_numeric. destruct (existsb too_large vs) eqn:E.
  - split; [intros _|done]. apply existsb_exists in E as (v & Hv & Hlarge).
    apply Exists_exists. exists v. split; [by apply list_elem_of_In|done].
  - split; [done|]. intros (v & Hv & Hlarge)%Exists_exists.
    assert (existsb too_large vs = true) as E'; [|congruence].
    apply existsb_exists. exists v. split; [by apply list_elem_of_In|done].
Qed.

Lemma fillna_length value ns : length (fillna value ns) = length ns.
Proof. apply length_fmap. Qed.

(** Unparsable text is NaN after [to_numeric]. *)
Lemma to_numeric_unparsable vs ns i v :
  to_numeric vs = Some ns → vs !! i = Some v → unparsable v = true →
  ns !! i = Some (NFloat S754_nan).
Proof.
  intros Hns Hi Hv. destruct v as [| |t|]; try done. simpl in Hv.
  apply bool_decide_eq_true in Hv.
  destruct (to_numeric_map vs ns Hns) as [[] ->];
    rewrite list_lookup_fmap, Hi; simpl; unfold numeric_cell; simpl; by rewrite Hv.
Qed.

(** After [fillna] no NaN is left, so the integer cast fails on an
    infinity and on nothing else. *)
Lemma number_to_int64_fillna value n :
  is_nan (number_to_float value) = false →
  is_finite (number_to_float value) = true →
  number_to_int64 (fill_cell value n) = None ↔ infinite n = true.
Proof.
  intros Hnan Hfin. unfold fill_cell.
  destruct n as [z|[]]; simpl; try rewrite Hfin; done.
Qed.

Lemma astype_int64_fillna_zero ns :
  Forall (λ n, infinite n = false) ns →
  ∃ zs, astype_int64 (fillna (NInt 0) ns) = Some zs ∧
        length zs = length ns ∧
        Forall (λ z, in_int64 z = true) zs ∧
        ∀ i, ns !! i = Some (NFloat S754_nan) → zs !! i = Some 0%Z.
Proof.
  intros Hfin. unfold astype_int64.
  destruct (mapM number_to_int64 (fillna (NInt 0) ns)) as [zs|] eqn:Hzs.
  - apply mapM_Some in Hzs. exists zs. split; [done|].
    split; [by rewrite <-(Forall2_length _ _ _ Hzs), fillna_length|].
    split.
    + apply Forall_forall. intros z [i Hz]%list_elem_of_lookup.
      destruct (Forall2_lookup_r _ _ _ _ _ Hzs Hz) as (n & _ & Hn).
      by eapply number_to_int64_range.
    + intros i Hi.
      assert (fillna (NInt 0) ns !! i = Some (NFloat float_zero)) as Hfill.
      { unfold fillna. by rewrite list_lookup_fmap, Hi. }
      destruct (Forall2_lookup_l _ _ _ _ _ Hzs Hfill) as (z & -> & Hz).
      by injection Hz as <-.
  - exfalso. apply eq_None_not_Some in Hzs. apply Hzs, mapM_is_Some.
    unfold fillna. apply Forall_fmap. eapply Forall_impl; [exact Hfin|].
    intros n Hn; simpl.
    destruct (number_to_int64 _) eqn:E; [done|].
    apply (number_to_int64_fillna (NInt 0)) in E; [congruence|done..].
Qed.

Lemma astype_int64_infinite value ns :
  is_nan (number_to_float value) = false →
  is_finite (number_to_float value) = true →
  Exists (λ n, infinite n = true) ns →
  astype_int64 (fillna value ns) = None.
Proof.
  intros Hnan Hfinite Hex. unfold astype_int64.
  apply eq_None_not_Some. rewrite mapM_is_Some. unfold fillna.
  rewrite Forall_fmap. intros Hall.
  apply Exists_exists in Hex as (n & Hn & Hinf).
  rewrite Forall_forall in Hall. specialize (Hall n Hn). simpl in Hall.
  apply (number_to_int64_fillna value) in Hinf; [|done..].
  rewrite Hinf in Hall. by destruct Hall.
Qed.

(** A conversion that returns a column has converted it cell by cell. *)
Lemma convert_rowwise new_type s s' :
  convert new_type s = inr s' →
  ∃ as_float, s_values s' = convert_cell new_type as_float <$> s_values s.
Proof.
  unfold convert, convert_cell.
  destruct (py_eq new_type np_int64).
  { destruct (to_numeric (s_values s)) as [ns|] eqn:Hns; [|done].
    destruct (to_numeric_map _ _ Hns) as [b ->].
    destruct (astype_int64 _) as [zs|] eqn:Hzs; [|done]. intros [= <-]; simpl.
    exists b. apply mapM_Some in Hzs. unfold fillna in Hzs.
    apply list_eq. intros i. rewrite !list_lookup_fmap.
    destruct (s_values s !! i) as [v|] eqn:Hv; simpl.
    - assert ((fill_cell (NInt 0) <$> (numeric_cell b <$> s_values s)) !! i
              = Some (fill_cell (NInt 0) (numeric_cell b v))) as Hi
        by by rewrite !list_lookup_fmap, Hv.
      destruct (Forall2_lookup_l _ _ _ _ _ Hzs Hi) as (z & -> & Hz).
      simpl. by rewrite Hz.
    - assert (zs !! i = None) as ->; [|done].
      apply lookup_ge_None. rewrite <-(Forall2_length _ _ _ Hzs), !length_fmap.
      by apply lookup_ge_None. }
  destruct (py_eq new_type np_float64).
  { destruct (to_numeric (s_values s)) as [ns|] eqn:Hns; [|done].
    destruct (to_numeric_map _ _ Hns) as [b ->].
    intros [= <-]; simpl. exists b. unfold astype_float64, fillna.
    by rewrite <-!list_fmap_compose. }
  destruct (py_eq new_type (py_str "string")); [intros [= <-]; by exists false|].
  assert (s_values s = id <$> s_values s) as Hid by by rewrite list_fmap_id.
  destruct (py_eq new_type (py_str "category")); intros [= <-]; by exists false.
Qed.

Lemma row_map_compose f h : row_map f → row_map h → row_map (h ∘ f).
Proof.
  intros Hf Hh. induction Hh as [|t b h Hh IH]; [exact Hf|].
  exact (row_map_convert t b (h ∘ f) IH).
Qed.

Lemma convert_pointwise new_type s s' :
  convert new_type s = inr s' → pointwise s s'.
Proof.
  intros [b Hb]%convert_rowwise.
  exists (convert_cell new_type b ∘ id). split; [|exact Hb].
  apply row_map_convert, row_map_id.
Qed.

Lemma pointwise_length s s' : pointwise s s' → length (s_values s') = length (s_values s).
Proof. intros (f & _ & ->). apply length_fmap. Qed.

Lemma pointwise_refl s : pointwise s s.
Proof. exists id. split; [apply row_map_id|by rewrite list_fmap_id]. Qed.

Lemma pointwise_trans s1 s2 s3 : pointwise s1 s2 → pointwise s2 s3 → pointwise s1 s3.
Proof.
  intros (f & Hrf & Hf) (h & Hrh & Hh). exists (h ∘ f).
  split; [by apply row_map_compose|]. by rewrite Hh, Hf, <-list_fmap_compose.
Qed.
End conversion_facts.

(** ** The Type Coercer *)

Lemma possible_types_at_least_two (d : dtype) :
  2 ≤ length (possible_types (py_dtype d)).
Proof.
  destruct d as [| | | |name| |]; try (vm_compute; lia).
  unfold possible_types; simpl.
  repeat (case_bool_decide; simpl); lia.
Qed.

Lemma possible_types_nonempty (d : dtype) : possible_types (py_dtype d) ≠ [].
Proof.
  intros E. pose proof (possible_types_at_least_two d) as Hlen.
  rewrite E in Hlen. simpl in Hlen. lia.
Qed.

Section coercer_facts.
Context {G : Type} `{!RandomSource G} `{!NumberSyntax}.
Implicit Types (df : DataFrame) (g : G) (log : list event) (s : Series).

(** One iteration on a label that selects a column: a target is drawn
    from the candidates and the column is converted or, when the
    conversion raises, left alone. *)
Lemma change_column_step col df g log s :
  getitem df col = Some (inl s) →
  ∃ t g', PyRandom.choice (possible_types (py_dtype (s_dtype s))) g = (Some t, g') ∧
          t ∈ possible_types (py_dtype (s_dtype s)) ∧
          change_column col (df, g, log)
          = inr match convert t s with
                | inr s' => (setitem df col s', g', log ++ [Converted col (s_dtype s) t])
                | inl e => (df, g', log ++ [ConvertFailed col (s_dtype s) t e])
                end.
Proof.
  intros Hget.
  destruct (choice_elem_of (possible_types (py_dtype (s_dtype s))) g)
    as (t & g' & Hchoice & Hin); [apply possible_types_nonempty|].
  exists t, g'. split; [done|]. split; [done|].
  unfold change_column. rewrite Hget.
  rewrite bool_decide_eq_false_2 by apply possible_types_nonempty.
  rewrite Hchoice. by destruct (convert t s).
Qed.

(** An iteration logs no skipped column, whatever it does. *)
Lemma change_column_no_skip col df g log :
  ∃ new, Forall (λ ev, is_skip ev = false) new ∧
         match change_column col (df, g, log) with
         | inl (_, log') | inr (_, _, log') => log' = log ++ new
         end.
Proof.
  destruct (getitem df col) as [[s|sub]|] eqn:Hget.
  - destruct (change_column_step col df g log s Hget) as (t & g' & _ & _ & ->).
    destruct (convert t s); eexists; (split; [|done]); by repeat constructor.
  - exists []. split; [done|]. unfold change_column. rewrite Hget.
    by rewrite app_nil_r.
  - exists []. split; [done|]. unfold change_column. rewrite Hget.
    by rewrite app_nil_r.
Qed.

Lemma change_columns_no_skip cols df g log :
  ∃ new, Forall (λ ev, is_skip ev = false) new ∧
         match change_columns cols (df, g, log) with
         | inl (_, log') | inr (_, _, log') => log' = log ++ new
         end.
Proof.
  revert df g log. induction cols as [|col cols IH]; intros df g log.
  { exists []. simpl. by rewrite app_nil_r. }
  destruct (change_column_no_skip col df g log) as (new1 & Hnew1 & Hstep).
  cbn [change_columns].
  destruct (change_column col (df, g, log)) as [[e log1]|[[df1 g1] log1]].
  { by exists new1. }
  subst log1.
  destruct (IH df1 g1 (log ++ new1)) as (new2 & Hnew2 & Hrest).
  exists (new1 ++ new2). split; [by apply Forall_app|].
  rewrite (assoc_L (++)).
  by destruct (change_columns cols _) as [[??]|[[??]?]].
Qed.
End coercer_facts.

(** C4 (amended): [pd.to_numeric] raises on a column that holds a Python
    int too large for a float, and then both numeric conversions raise
    [OverflowError].  When it returns: converting to integer replaces
    every value that fails to parse by 0 and stores 64-bit signed
    integers, provided no infinite value was found; with an infinite
    value the integer cast raises.  Converting to floating-point replaces
    every value that fails to parse by 0.0.  Converting to text always
    succeeds and gives the default string form of every value.  In the
    loop a conversion that raises is logged as one record at ERROR level
    and the table is left as it was; one that returns is stored in the
    column and logged at INFO level. *)
Theorem C4_fallback_policy {G : Type} `{!RandomSource G} `{!NumberSyntax} (s : Series) :
  (to_numeric (s_values s) = None ↔
   Exists (λ v, too_large v = true) (s_values s)) ∧
  (to_numeric (s_values s) = None →
   convert np_int64 s = inl overflow_error ∧
   convert np_float64 s = inl overflow_error) ∧
  (∀ ns, to_numeric (s_values s) = Some ns →
     (Forall (λ n, infinite n = false) ns →
      ∃ zs, convert np_int64 s = inr {| s_dtype := dt_int64; s_values := VInt <$> zs |} ∧
            length zs = length (s_values s) ∧
            Forall (λ z, in_int64 z = true) zs ∧
            ∀ i v, s_values s !! i = Some v → unparsable v = true →
                   zs !! i = Some 0%Z) ∧
     (Exists (λ n, infinite n = true) ns →
      convert np_int64 s = inl int_casting_error) ∧
     (∃ fs, convert np_float64 s
            = inr {| s_dtype := dt_float64; s_values := VFloat <$> fs |} ∧
            length fs = length (s_values s) ∧
            ∀ i v, s_values s !! i = Some v → unparsable v = true →
                   fs !! i = Some float_zero)) ∧
  convert (py_str "string") s
  = inr {| s_dtype := dt_object; s_values := (λ v, VStr (py_repr v)) <$> s_values s |} ∧
  (∀ (df : DataFrame) (col : string) (g g' : G) (log : list event) (t : pyobj),
     getitem df col = Some (inl s) →
     PyRandom.choice (possible_types (py_dtype (s_dtype s))) g = (Some t, g') →
     (∀ e, convert t s = inl e →
        change_column col (df, g, log)
        = inr (df, g', log ++ [ConvertFailed col (s_dtype s) t e]) ∧
        level_of (ConvertFailed col (s_dtype s) t e) = ERROR) ∧
     (∀ s', convert t s = inr s' →
        change_column col (df, g, log)
        = inr (setitem df col s', g', log ++ [Converted col (s_dtype s) t]) ∧
        level_of (Converted col (s_dtype s) t) = INFO)).
Proof.
  split; [apply to_numeric_raises|].
  split; [intros Hraise; unfold convert; simpl; by rewrite Hraise|].
  split; [|split; [done|]].
  - intros ns Hns. split; [|split].
    + intros Hfin.
      destruct (astype_int64_fillna_zero _ Hfin) as (zs & Hzs & Hlen & Hrange & Hzero).
      exists zs. unfold convert; simpl. rewrite Hns, Hzs.
      split; [done|]. split; [by rewrite Hlen, (to_numeric_length _ _ Hns)|].
      split; [done|].
      intros i v Hi Hv. by eapply Hzero, to_numeric_unparsable.
    + intros Hinf. unfold convert; simpl.
      by rewrite Hns, (astype_int64_infinite (NInt 0)).
    + exists (astype_float64 (fillna (NFloat float_zero) ns)).
      unfold convert; simpl. rewrite Hns.
      split; [done|]. unfold astype_float64.
      split; [by rewrite length_fmap, fillna_length, (to_numeric_length _ _ Hns)|].
      intros i v Hi Hv. unfold fillna.
      by rewrite !list_lookup_fmap, (to_numeric_unparsable _ _ _ _ Hns Hi Hv).
  - intros df col g g' log t Hget Hchoice.
    destruct (change_column_step col df g log s Hget) as (t' & g'' & Hchoice' & _ & Hstep).
    rewrite Hchoice in Hchoice'. injection Hchoice' as <- <-.
    split; [intros e He|intros s' Hs']; by rewrite Hstep, ?He, ?Hs'.
Qed.

(** C3, evaluated on a text column: ['string'] is never equal to the
    [object] dtype, so [remove] finds nothing to remove and text stays a
    candidate next to integer and floating-point; drawn, it converts the
    column to the [object] type it already has. *)
Theorem C3_text_candidates `{!NumberSyntax} :
  possible_types (py_dtype dt_object) = [np_int64; np_float64; py_str "string"] ∧
  py_eq (py_str "string") (py_dtype dt_object) = false ∧
  list_remove (py_dtype dt_object) [np_int64; np_float64; py_str "string"] = None ∧
  ∀ s, ∃ s', convert (py_str "string") s = inr s' ∧ s_dtype s' = dt_object.
Proof. repeat split. intros s. by eexists. Qed.

(** C2: for a column whose type is integer, with the generator reseeded
    from any seed (42 for one), the Type Coercer draws text or
    categorical, the conversion succeeds, and the column's type afterwards
    is the text or the categorical type. *)
Theorem C2_integer_column_choice {G : Type} `{!RandomSource G} `{!NumberSyntax}
    (df : DataFrame) (col : string) (s : Series) (seed : option Z) (g0 : G)
    (log : list event) :
  getitem df col = Some (inl s) →
  s_dtype s = dt_int64 →
  let g := reseed seed g0 in
  ∃ t g' s',
    PyRandom.choice (possible_types (py_dtype dt_int64)) g = (Some t, g') ∧
    (t = py_str "string" ∨ t = py_str "category") ∧
    convert t s = inr s' ∧
    (s_dtype s' = dt_object ∨ s_dtype s' = dt_category) ∧
    change_column col (df, g, log)
    = inr (setitem df col s', g', log ++ [Converted col dt_int64 t]).
Proof.
  intros Hget Hint g.
  destruct (change_column_step col df g log s Hget) as (t & g' & Hchoice & Hin & Hstep).
  rewrite Hint in Hchoice, Hin, Hstep.
  change (possible_types (py_dtype dt_int64))
    with [py_str "string"; py_str "category"] in Hin.
  apply elem_of_cons in Hin as [-> | Hin]; [|apply list_elem_of_singleton in Hin as ->].
  - eexists _, g', _. split; [exact Hchoice|]. split; [by left|].
    split; [reflexivity|]. split; [by left|]. exact Hstep.
  - eexists _, g', _. split; [exact Hchoice|]. split; [by right|].
    split; [reflexivity|]. split; [by right|]. exact Hstep.
Qed.

(** C10: whatever the type of a column, at least two candidate types
    remain, so the loop never logs "No valid conversion types found": the
    events a run of the Type Coercer adds to the log contain no skipped
    column, whether it finishes or raises. *)
Theorem C10_candidates_never_empty {G : Type} `{!RandomSource G} `{!NumberSyntax} :
  (∀ d : dtype, 2 ≤ length (possible_types (py_dtype d))) ∧
  (∀ (df : DataFrame) (seed : option Z) (g : G) (log : list event),
      ∃ new, Forall (λ ev, is_skip ev = false) new ∧
             match change_data_types df seed g log with
             | inl (_, log') | inr (_, _, log') => log' = log ++ new
             end).
Proof.
  split; [apply possible_types_at_least_two|].
  intros df seed g log. apply change_columns_no_skip.
Qed.

(** ** Rows through the stages *)

Section row_facts.
Context {G : Type} `{!RandomSource G} `{!NumberSyntax}.
Implicit Types (df : DataFrame) (g : G) (log : list event) (s : Series).

Lemma columnwise_refl df : columnwise df df.
Proof.
  split; [done|]. apply Forall_Forall2_diag, Forall_forall.
  intros c _. split; [done|apply pointwise_refl].
Qed.

Lemma columnwise_trans df1 df2 df3 :
  columnwise df1 df2 → columnwise df2 df3 → columnwise df1 df3.
Proof.
  intros [Hi1 H1] [Hi2 H2]. split; [congruence|].
  eapply Forall2_trans; [|exact H1|exact H2].
  intros c1 c2 c3 [E1 P1] [E2 P2]. split; [congruence|].
  by eapply pointwise_trans.
Qed.

Lemma columnwise_labels df df' : columnwise df df' → labels df' = labels df.
Proof.
  intros [_ Hall]. unfold labels.
  induction Hall as [|c c' cs cs' [Hc _] _ IH]; [done|].
  rewrite !fmap_cons. by f_equal.
Qed.

Lemma columnwise_setitem df col s s' :
  NoDup (labels df) → getitem df col = Some (inl s) → pointwise s s' →
  columnwise df (setitem df col s').
Proof.
  intros Hnd Hget Hpw. split; [done|]. simpl.
  apply Forall2_fmap_r, Forall_Forall2_diag, Forall_forall.
  intros c Hc. unfold compose, has_label.
  destruct (decide (c.1 = col)) as [Hl|Hl];
    [rewrite bool_decide_eq_true_2 by done|rewrite bool_decide_eq_false_2 by done];
    simpl.
  - split; [done|].
    pose proof (getitem_unique df c Hnd Hc) as Hget'.
    rewrite Hl, Hget in Hget'. by injection Hget' as ->.
  - split; [done|apply pointwise_refl].
Qed.

Lemma columnwise_wf df df' : wf df → columnwise df df' → wf df'.
Proof.
  intros [Hnd Hlen] Hcw. split; [by rewrite (columnwise_labels _ _ Hcw)|].
  destruct Hcw as [Hidx Hall]. rewrite Hidx.
  induction Hall as [|c c' cs cs' [_ Hpw] _ IH]; [done|].
  apply Forall_cons in Hlen as [Hc Hlen].
  constructor; [|by apply IH].
  by rewrite (pointwise_length _ _ Hpw).
Qed.

Lemma columnwise_rows_kept df df' : wf df → columnwise df df' → rows_kept df df'.
Proof.
  intros [_ Hlen] [Hidx Hall]. split; [done|].
  apply Forall_forall. intros c' [i Hi]%list_elem_of_lookup.
  destruct (Forall2_lookup_r _ _ _ _ _ Hall Hi) as (c & Hc & _ & Hpw).
  assert (c ∈ df_columns df) as Hin by by eapply list_elem_of_lookup_2.
  split; [|by exists c].
  rewrite (pointwise_length _ _ Hpw).
  by apply (proj1 (Forall_forall _ _) Hlen).
Qed.

Lemma rows_kept_trans df1 df2 df3 :
  rows_kept df1 df2 → rows_kept df2 df3 → rows_kept df1 df3.
Proof.
  intros [Hi1 H1] [Hi2 H2]. split; [congruence|].
  rewrite Forall_forall in H1, H2. apply Forall_forall.
  intros c3 Hc3. destruct (H2 c3 Hc3) as (Hlen3 & c2 & Hc2 & P23).
  destruct (H1 c2 Hc2) as (_ & c1 & Hc1 & P12).
  split; [congruence|]. exists c1. split; [done|]. by eapply pointwise_trans.
Qed.

(** The loop of the Type Coercer on a loaded table: it finishes, and
    the columns keep their labels, places and rows. *)
Lemma change_columns_columnwise cols df g log :
  wf df → (∀ col, col ∈ cols → col ∈ labels df) →
  ∃ df' g' log', change_columns cols (df, g, log) = inr (df', g', log') ∧
                 columnwise df df'.
Proof.
  revert df g log. induction cols as [|col cols IH]; intros df g log Hwf Hcols.
  { exists df, g, log. split; [done|apply columnwise_refl]. }
  assert (col ∈ labels df) as Hcol by (apply Hcols; left).
  apply list_elem_of_fmap in Hcol as (c & -> & Hc).
  pose proof (getitem_unique df c (proj1 Hwf) Hc) as Hget.
  destruct (change_column_step c.1 df g log c.2 Hget) as (t & g1 & _ & _ & Hstep).
  cbn [change_columns]. rewrite Hstep.
  assert (∃ df1 log1,
             match convert t c.2 with
             | inr s' => (setitem df c.1 s', g1, log ++ [Converted c.1 (s_dtype c.2) t])
             | inl e => (df, g1, log ++ [ConvertFailed c.1 (s_dtype c.2) t e])
             end = (df1, g1, log1) ∧ columnwise df df1) as (df1 & log1 & -> & Hcw1).
  { destruct (convert t c.2) as [e|s'] eqn:Hconv.
    - eexists _, _. split; [done|apply columnwise_refl].
    - eexists _, _. split; [done|].
      eapply columnwise_setitem; [apply Hwf|done|by eapply convert_pointwise]. }
  destruct (IH df1 g1 log1) as (df' & g' & log' & Hrest & Hcw).
  { by eapply columnwise_wf. }
  { intros col Hin. rewrite (columnwise_labels _ _ Hcw1). apply Hcols. by right. }
  exists df', g', log'. split; [done|]. by eapply columnwise_trans.
Qed.

(** Distinct labels are all the loop needs to finish. *)
Lemma change_columns_finish cols df g log :
  NoDup (labels df) → (∀ col, col ∈ cols → col ∈ labels df) →
  ∃ df' g' log', change_columns cols (df, g, log) = inr (df', g', log') ∧
                 labels df' = labels df.
Proof.
  revert df g log. induction cols as [|col cols IH]; intros df g log Hnd Hcols.
  { by exists df, g, log. }
  assert (col ∈ labels df) as Hcol by (apply Hcols; left).
  apply list_elem_of_fmap in Hcol as (c & -> & Hc).
  pose proof (getitem_unique df c Hnd Hc) as Hget.
  destruct (change_column_step c.1 df g log c.2 Hget) as (t & g1 & _ & _ & Hstep).
  cbn [change_columns]. rewrite Hstep.
  assert (∃ df1 log1,
             match convert t c.2 with
             | inr s' => (setitem df c.1 s', g1, log ++ [Converted c.1 (s_dtype c.2) t])
             | inl e => (df, g1, log ++ [ConvertFailed c.1 (s_dtype c.2) t e])
             end = (df1, g1, log1) ∧ labels df1 = labels df) as (df1 & log1 & -> & Hl1).
  { destruct (convert t c.2) as [e|s'] eqn:Hconv; eexists _, _; (split; [done|]); [done|].
    eapply columnwise_labels, columnwise_setitem; [done..|by eapply convert_pointwise]. }
  destruct (IH df1 g1 log1) as (df' & g' & log' & Hrest & Hl).
  { by rewrite Hl1. }
  { intros col Hin. rewrite Hl1. apply Hcols. by right. }
  exists df', g', log'. split; [done|]. by rewrite Hl, Hl1.
Qed.

Lemma change_data_types_columnwise df seed g log :
  wf df →
  ∃ df' g' log', change_data_types df seed g log = inr (df', g', log') ∧
                 columnwise df df'.
Proof. intros Hwf. by apply change_columns_columnwise. Qed.

Lemma wf_randomize_column_names df seed g :
  wf df → wf (randomize_column_names df seed g).1.
Proof.
  intros [Hnd Hlen]. split.
  - rewrite labels_randomize_column_names by done.
    rewrite new_names_perm. apply NoDup_column_names.
  - rewrite randomize_column_names_table. simpl.
    apply Forall_fmap. eapply Forall_impl; [exact Hlen|]. by intros c Hc.
Qed.

Lemma rows_kept_randomize_column_names df seed g :
  wf df → rows_kept df (randomize_column_names df seed g).1.
Proof.
  intros [_ Hlen]. rewrite randomize_column_names_table.
  split; [done|]. simpl. apply Forall_fmap, Forall_forall.
  intros c Hc; simpl. split; [by apply (proj1 (Forall_forall _ _) Hlen)|].
  exists c. split; [done|apply pointwise_refl].
Qed.

Lemma wf_reorder_columns df seed g :
  wf df → wf (reorder_columns df seed g).1.
Proof.
  intros [Hnd Hlen].
  pose proof (columns_reorder_columns df seed g Hnd) as Hperm.
  split.
  - unfold labels. by rewrite Hperm.
  - rewrite Hperm. by rewrite reorder_columns_table.
Qed.

Lemma rows_kept_reorder_columns df seed g :
  wf df → rows_kept df (reorder_columns df seed g).1.
Proof.
  intros [Hnd Hlen].
  pose proof (columns_reorder_columns df seed g Hnd) as Hperm.
  split; [by rewrite reorder_columns_table|].
  apply Forall_forall. intros c Hc. rewrite Hperm in Hc.
  split; [by apply (proj1 (Forall_forall _ _) Hlen)|].
  exists c. split; [done|apply pointwise_refl].
Qed.

(** On a table with distinct labels the three stages finish. *)
Lemma stages_finish df seed g log :
  NoDup (labels df) →
  ∃ df' g' log', apply_randomization df seed g log = inr (df', g', log').
Proof.
  intros Hnd. unfold apply_randomization.
  pose proof (labels_randomize_column_names df seed g Hnd) as Hlabels1.
  destruct (randomize_column_names df seed g) as [df1 g1]; simpl in Hlabels1.
  assert (NoDup (labels df1)) as Hnd1.
  { rewrite Hlabels1, new_names_perm. apply NoDup_column_names. }
  pose proof (columns_reorder_columns df1 seed g1 Hnd1) as Hperm2.
  destruct (reorder_columns df1 seed g1) as [df2 g2]; simpl in Hperm2.
  assert (NoDup (labels df2)) as Hnd2 by (unfold labels; by rewrite Hperm2).
  destruct (change_columns_finish (labels df2) df2 (reseed seed g2) log Hnd2)
    as (df' & g' & log' & Hrun & _); [done|].
  by exists df', g', log'.
Qed.
End row_facts.

(** C7: on a valid table (distinct labels, every column as long as the
    index) each stage, and the three stages in sequence, finish and keep
    the rows: the row count is the same, every column has that many
    cells, and row i of a column comes from row i of a column of the
    input.  A run of [main] that loads such a table and can write its
    destination writes a table with the rows kept. *)
Theorem C7_row_count_invariant {G : Type}
    `{!RandomSource G} `{!NumberSyntax} `{!CsvFormat}
    (df : DataFrame) (seed : option Z) (g : G) (log : list event) :
  wf df →
  rows_kept df (randomize_column_names df seed g).1 ∧
  rows_kept df (reorder_columns df seed g).1 ∧
  (∃ df' g' log', change_data_types df seed g log = inr (df', g', log') ∧
                  rows_kept df df') ∧
  (∃ df' g' log', apply_randomization df seed g log = inr (df', g', log') ∧
                  rows_kept df df' ∧ df_index df' = df_index df) ∧
  (∀ (input output text : string) (w : world),
     fs w !! input = Some (File text) →
     endswith (lower input) ".csv" = true →
     read_csv_text text = Some df →
     fs w !! output ≠ Some Locked →
     output ∉ unwritable w →
     ∃ df', fs (end_world (main {| input_file := input; output_file := output;
                                   seed := seed |} w g)) !! output
            = Some (File (to_csv_text df')) ∧
            rows_kept df df' ∧ df_index df' = df_index df).
Proof.
  intros Hwf.
  assert (∀ log0, ∃ df' g' log', apply_randomization df seed g log0 = inr (df', g', log') ∧
                  rows_kept df df' ∧ df_index df' = df_index df) as Hpipeline.
  { intros log0. unfold apply_randomization.
    pose proof (wf_randomize_column_names df seed g Hwf) as Hwf1.
    pose proof (rows_kept_randomize_column_names df seed g Hwf) as Hrows1.
    destruct (randomize_column_names df seed g) as [df1 g1]; simpl in Hwf1, Hrows1.
    pose proof (wf_reorder_columns df1 seed g1 Hwf1) as Hwf2.
    pose proof (rows_kept_reorder_columns df1 seed g1 Hwf1) as Hrows2.
    destruct (reorder_columns df1 seed g1) as [df2 g2]; simpl in Hwf2, Hrows2.
    destruct (change_data_types_columnwise df2 seed g2 log0 Hwf2)
      as (df' & g' & log' & Hrun & Hcw).
    exists df', g', log'. split; [done|].
    assert (rows_kept df df') as Hrows.
    { eapply rows_kept_trans; [exact Hrows1|].
      eapply rows_kept_trans; [exact Hrows2|]. by apply columnwise_rows_kept. }
    split; [done|apply Hrows]. }
  split; [by apply rows_kept_randomize_column_names|].
  split; [by apply rows_kept_reorder_columns|].
  split; [|split; [apply Hpipeline|]].
  - destruct (change_data_types_columnwise df seed g log Hwf)
      as (df' & g' & log' & Hrun & Hcw).
    exists df', g', log'. split; [done|]. by apply columnwise_rows_kept.
  - intros input output text w Hfile Hext Hread Hfree Hwritable.
    destruct (Hpipeline [ReadOk input]) as (df' & g' & log' & Hrun & Hrows & Hidx).
    exists df'. split; [|done].
    unfold main, main_try, validate_input, read_csv, to_csv; simpl.
    rewrite Hfile, Hext, Hread; simpl. rewrite Hrun.
    rewrite bool_decide_eq_false_2 by done.
    destruct (fs w !! output) as [[| |]|]; try done; simpl; apply lookup_insert_eq.
Qed.

(** ** Seeding *)

(** With a seed other than 0 a stage starts from the seeded generator,
    whatever the generator held before. *)
Lemma stages_reseed_nonzero {G : Type} `{!RandomSource G} `{!NumberSyntax}
    (df : DataFrame) (s : Z) (g g' : G) (log : list event) :
  s ≠ 0%Z →
  randomize_column_names df (Some s) g = randomize_column_names df (Some s) g' ∧
  reorder_columns df (Some s) g = reorder_columns df (Some s) g' ∧
  change_data_types df (Some s) g log = change_data_types df (Some s) g' log.
Proof.
  intros Hs. unfold randomize_column_names, reorder_columns, change_data_types.
  by rewrite !(reseed_nonzero s) by done.
Qed.

(** C8, evaluated at [--seed 0]: [if seed:] takes 0 for "no seed", so no
    stage calls [random.seed]; each behaves as it does without the option
    and continues from the generator state it finds. *)
Theorem C8_seed_zero_not_applied {G : Type} `{!RandomSource G} `{!NumberSyntax}
    (df : DataFrame) (g : G) (log : list event) :
  reseed (Some 0%Z) g = g ∧
  randomize_column_names df (Some 0%Z) g = randomize_column_names df None g ∧
  reorder_columns df (Some 0%Z) g = reorder_columns df None g ∧
  change_data_types df (Some 0%Z) g log = change_data_types df None g log.
Proof. repeat split. Qed.

(** ** The driver *)

Section driver_facts.
Context {G : Type} `{!RandomSource G} `{!NumberSyntax} `{!CsvFormat}.
Implicit Types (df : DataFrame) (g : G) (log : list event) (w : world).

Lemma change_column_raises col (st : loop_state) e log :
  change_column col st = inl (e, log) → isinstance e Exception = true.
Proof.
  destruct st as [[df g] log0]. unfold change_column.
  destruct (getitem df col) as [[s|sub]|]; [|by intros [= <- _]..].
  case_bool_decide; [done|].
  destruct (PyRandom.choice _ g) as [[t|] g']; [|by intros [= <- _]].
  by destruct (convert t s).
Qed.

Lemma change_columns_raises cols (st : loop_state) e log :
  change_columns cols st = inl (e, log) → isinstance e Exception = true.
Proof.
  revert st. induction cols as [|col cols IH]; intros st; [done|].
  cbn [change_columns].
  destruct (change_column col st) as [[e' log']|st'] eqn:Hstep; [|apply IH].
  intros [= <- <-]. by eapply change_column_raises.
Qed.

Lemma to_csv_raises df path w e :
  to_csv df path w = inl e → isinstance e OSError = true.
Proof.
  unfold to_csv.
  destruct (fs w !! path) as [[| |]|]; try case_bool_decide;
    try destruct (no_such_file path w); by intros [= <-].
Qed.

(** The write fails where the destination cannot be opened or created. *)
Lemma to_csv_fails df path w :
  fs w !! path = Some Locked ∨ path ∈ unwritable w →
  ∃ e, to_csv df path w = inl e.
Proof.
  intros Hout. unfold to_csv. destruct Hout as [-> | Hout]; [eauto|].
  rewrite bool_decide_eq_true_2 by done.
  destruct (fs w !! path) as [[| |]|], (no_such_file path w); eauto.
Qed.

(** The [try] block on an input that loads to a table with distinct
    labels reaches the write, and ends as the write ends. *)
Lemma main_try_reaches_write (args : Namespace) w g text df :
  fs w !! input_file args = Some (File text) →
  endswith (lower (input_file args)) ".csv" = true →
  read_csv_text text = Some df →
  NoDup (labels df) →
  ∃ df' g' log,
    apply_randomization df (seed args) g [ReadOk (input_file args)]
    = inr (df', g', log) ∧
    main_try args w g
    = match to_csv df' (output_file args) w with
      | inl e => inl (e, log)
      | inr w' => inr (w', log ++ [WroteOk (output_file args)])
      end.
Proof.
  intros Hfile Hext Hread Hnd.
  destruct (stages_finish df (seed args) g [ReadOk (input_file args)] Hnd)
    as (df' & g' & log & Hrun).
  exists df', g', log. split; [done|].
  unfold main_try, validate_input, read_csv.
  rewrite Hfile, Hext, Hread; simpl. by rewrite Hrun.
Qed.

(** A block that finishes has written: its destination could be
    written. *)
Lemma main_try_unwritable (args : Namespace) w g :
  fs w !! output_file args = Some Locked ∨ output_file args ∈ unwritable w →
  ∃ e log, main_try args w g = inl (e, log).
Proof.
  intros Hout. unfold main_try.
  destruct (validate_input _ w); [by eauto|].
  destruct (read_csv _ w) as [|df]; [by eauto|].
  destruct (apply_randomization _ _ _ _) as [[e log]|[[df' g'] log']]; [by eauto|].
  destruct (to_csv_fails df' _ w Hout) as [e ->]. eauto.
Qed.

(** Whatever the [try] block raises is an [Exception]: one of the three
    [except] clauses catches it. *)
Lemma main_try_raises (args : Namespace) w g e log :
  main_try args w g = inl (e, log) → isinstance e Exception = true.
Proof.
  unfold main_try, validate_input, read_csv, apply_randomization, change_data_types.
  destruct (fs w !! input_file args) as [[text| |]|]; [|by intros [= <- _]..].
  destruct (negb _); [by intros [= <- _]|].
  destruct (read_csv_text text) as [df|]; [|by intros [= <- _]].
  destruct (randomize_column_names df _ g) as [df1 g1].
  destruct (reorder_columns df1 _ g1) as [df2 g2].
  destruct (change_columns _ _) as [[e' log']|[[df3 g3] log3]] eqn:Hloop.
  { intros [= <- <-]. by eapply change_columns_raises. }
  destruct (to_csv df3 _ w) as [e'|w'] eqn:Hw; [|done].
  intros [= <- _]. apply to_csv_raises in Hw. revert Hw.
  destruct e' as [[] msg]; vm_compute; congruence.
Qed.
End driver_facts.

(** C9: every run ends with exit status 0.  Whatever the [try] block
    raises is logged as one record at ERROR level, after which the files
    are as they were before the run.  A missing input file, a wrong
    extension, unparsable content and a destination that cannot be
    written each make the block raise; in the first three cases nothing
    but the error is logged.  When the input loads to a table with
    distinct labels and the destination cannot be written, what the
    block raises is the exception of the write, and the run logs it at
    ERROR level and leaves the files as they were. *)
Theorem C9_errors_logged_exit_zero {G : Type}
    `{!RandomSource G} `{!NumberSyntax} `{!CsvFormat}
    (args : Namespace) (w : world) (g : G) :
  exit_status (main args w g) = 0%Z ∧
  (∀ e log, main_try args w g = inl (e, log) →
     ∃ ev, end_log (main args w g) = log ++ [ev] ∧ level_of ev = ERROR ∧
           (ev = Failed e ∨ ev = Unexpected e) ∧
           end_world (main args w g) = w) ∧
  (fs w !! input_file args = None →
     ∃ e, main_try args w g = inl (e, []) ∧ exn_type e = FileNotFoundError) ∧
  (∀ text, fs w !! input_file args = Some (File text) →
     endswith (lower (input_file args)) ".csv" = false →
     ∃ e, main_try args w g = inl (e, []) ∧ exn_type e = ValueError) ∧
  (∀ text, fs w !! input_file args = Some (File text) →
     endswith (lower (input_file args)) ".csv" = true →
     read_csv_text text = None →
     ∃ e, main_try args w g = inl (e, []) ∧ exn_type e = ParserError) ∧
  (∀ df, fs w !! output_file args = Some Locked ∨ output_file args ∈ unwritable w →
     ∃ e, to_csv df (output_file args) w = inl e) ∧
  (fs w !! output_file args = Some Locked ∨ output_file args ∈ unwritable w →
     ∃ e log ev, main_try args w g = inl (e, log) ∧
                 end_log (main args w g) = log ++ [ev] ∧ level_of ev = ERROR ∧
                 end_world (main args w g) = w) ∧
  (∀ text df,
     fs w !! input_file args = Some (File text) →
     endswith (lower (input_file args)) ".csv" = true →
     read_csv_text text = Some df →
     NoDup (labels df) →
     fs w !! output_file args = Some Locked ∨ output_file args ∈ unwritable w →
     ∃ df' g' log e ev,
       apply_randomization df (seed args) g [ReadOk (input_file args)]
       = inr (df', g', log) ∧
       to_csv df' (output_file args) w = inl e ∧
       main_try args w g = inl (e, log) ∧
       end_log (main args w g) = log ++ [ev] ∧ level_of ev = ERROR ∧
       (ev = Failed e ∨ ev = Unexpected e) ∧
       end_world (main args w g) = w).
Proof.
  assert (∀ e log, main_try args w g = inl (e, log) →
            exit_status (main args w g) = 0%Z ∧
            ∃ ev, end_log (main args w g) = log ++ [ev] ∧ level_of ev = ERROR ∧
                  (ev = Failed e ∨ ev = Unexpected e) ∧
                  end_world (main args w g) = w) as Hcaught.
  { intros e log Htry. pose proof (main_try_raises _ _ _ _ _ Htry) as Hexn.
    unfold main. rewrite Htry, Hexn.
    destruct (isinstance e FileNotFoundError); [by eauto 10|].
    destruct (isinstance e ValueError); by eauto 10. }
  split; [|split; [|split; [|split; [|split; [|split; [|split]]]]]].
  - destruct (main_try args w g) as [[e log]|[w' log]] eqn:Htry.
    + by apply (Hcaught e log).
    + unfold main. by rewrite Htry.
  - intros e log Htry. by apply Hcaught.
  - intros Hmissing. unfold main_try, validate_input. rewrite Hmissing. eauto.
  - intros text Hfile Hext. unfold main_try, validate_input.
    rewrite Hfile, Hext. simpl. eauto.
  - intros text Hfile Hext Hparse. unfold main_try, validate_input, read_csv.
    rewrite Hfile, Hext, Hparse. simpl. eauto.
  - intros df. apply to_csv_fails.
  - intros Hout. destruct (main_try_unwritable args w g Hout) as (e & log & Htry).
    destruct (Hcaught e log Htry) as (_ & ev & Hlog & Hlevel & _ & Hworld).
    by exists e, log, ev.
  - intros text df Hfile Hext Hread Hnd Hout.
    destruct (main_try_reaches_write args w g text df Hfile Hext Hread Hnd)
      as (df' & g' & log & Hrun & Htry).
    destruct (to_csv_fails df' _ w Hout) as [e Hwrite]. rewrite Hwrite in Htry.
    destruct (Hcaught e log Htry) as (_ & ev & Hlog & Hlevel & Hev & Hworld).
    by exists df', g', log, e, ev.
Qed.

(** ** The theorems at concrete inputs

    The reference generator, number syntax and CSV format instantiate the
    interfaces; the hypotheses of the theorems are checked by evaluation. *)

Module Examples.
Import Reference.

Lemma table_labels_distinct : NoDup (labels table).
Proof.
  change (labels table) with ["id"; "name"].
  apply NoDup_cons. split; [|apply NoDup_singleton].
  by intros [= ]%list_elem_of_singleton.
Qed.

Lemma table_wf : wf table.
Proof. split; [apply table_labels_distinct|]. by repeat constructor. Qed.

Lemma C2_integer_column_choice_witness :
  getitem table "id" = Some (inl id_column) ∧
  s_dtype id_column = dt_int64 ∧
  ∃ t g' s',
    PyRandom.choice (possible_types (py_dtype dt_int64))
      (reseed (Some 42%Z) 0%Z) = (Some t, g') ∧
    (t = py_str "string" ∨ t = py_str "category") ∧
    convert t id_column = inr s' ∧
    (s_dtype s' = dt_object ∨ s_dtype s' = dt_category) ∧
    change_column "id" (table, reseed (Some 42%Z) 0%Z, [])
    = inr (setitem table "id" s', g', [] ++ [Converted "id" dt_int64 t]).
Proof.
  split; [reflexivity|]. split; [reflexivity|].
  apply (C2_integer_column_choice table "id" id_column (Some 42%Z) 0%Z []);
    reflexivity.
Defined.

(** C4, as the specification words it, fails on a text column holding
    ["abc"] and ["inf"]: the generator draws the integer type, ["abc"]
    does not parse, yet the cast raises on the infinity, the failure is
    logged and the table stays as it was, ["abc"] included. *)
Lemma C4_unparsable_value_kept :
  unparsable (VStr "abc") = true ∧
  PyRandom.choice (possible_types (py_dtype dt_object)) 0%Z
  = (Some np_int64, lcg_next 0) ∧
  change_column "c" (text_table_inf, 0%Z, [])
  = inr (text_table_inf, lcg_next 0,
         [ConvertFailed "c" dt_object np_int64
            {| exn_type := IntCastingNaNError;
               exn_msg := "Cannot convert non-finite values (NA or inf) to integer" |}]).
Proof. repeat split. Qed.

Lemma C4_fallback_policy_witness :
  (∃ ns, to_numeric (s_values text_column) = Some ns ∧
         Forall (λ n, infinite n = false) ns) ∧
  (∃ zs, convert np_int64 text_column
         = inr {| s_dtype := dt_int64; s_values := VInt <$> zs |} ∧
         length zs = length (s_values text_column) ∧
         Forall (λ z, in_int64 z = true) zs ∧
         ∀ i v, s_values text_column !! i = Some v → unparsable v = true →
                zs !! i = Some 0%Z) ∧
  getitem text_table_inf "c" = Some (inl text_column_inf) ∧
  PyRandom.choice (possible_types (py_dtype (s_dtype text_column_inf))) 0%Z
  = (Some np_int64, lcg_next 0) ∧
  convert np_int64 text_column_inf = inl int_casting_error ∧
  change_column "c" (text_table_inf, 0%Z, [])
  = inr (text_table_inf, lcg_next 0,
         [] ++ [ConvertFailed "c" (s_dtype text_column_inf) np_int64 int_casting_error]) ∧
  level_of (ConvertFailed "c" (s_dtype text_column_inf) np_int64 int_casting_error)
  = ERROR.
Proof.
  assert (∃ ns, to_numeric (s_values text_column) = Some ns ∧
                Forall (λ n, infinite n = false) ns) as Hfinite.
  { eexists. split; [reflexivity|]. by repeat constructor. }
  split; [exact Hfinite|].
  destruct Hfinite as (ns & Hns & Hfinite).
  split.
  { destruct (C4_fallback_policy (G:=Z) text_column) as (_ & _ & Hreturns & _).
    exact (proj1 (Hreturns ns Hns) Hfinite). }
  split; [reflexivity|]. split; [reflexivity|]. split; [reflexivity|].
  destruct (C4_fallback_policy (G:=Z) text_column_inf) as (_ & _ & _ & _ & Hloop).
  apply (Hloop text_table_inf "c" 0%Z (lcg_next 0) [] np_int64); reflexivity.
Defined.

Lemma C5_rename_bijection_witness :
  let df' := (randomize_column_names table (Some 42%Z) 0%Z).1 in
  NoDup (labels table) ∧
  NoDup (labels df') ∧
  (df_columns df').*2 = (df_columns table).*2.
Proof.
  split; [exact table_labels_distinct|].
  destruct (C5_rename_bijection table (Some 42%Z) 0%Z table_labels_distinct)
    as (_ & Hnew & _ & _ & Hdata & _).
  split; [exact Hnew|exact Hdata].
Defined.

Lemma C6_reorder_permutation_witness :
  NoDup (labels table) ∧
  df_columns (reorder_columns table (Some 42%Z) 0%Z).1 ≡ₚ df_columns table.
Proof.
  split; [exact table_labels_distinct|].
  exact (proj1 (C6_reorder_permutation table (Some 42%Z) 0%Z table_labels_distinct)).
Defined.

Lemma C7_row_count_invariant_witness :
  wf table ∧
  (∃ df' g' log', apply_randomization table (Some 7%Z) 0%Z [] = inr (df', g', log') ∧
                  rows_kept table df' ∧ df_index df' = df_index table) ∧
  ∃ df', fs (end_world (main {| input_file := "in.csv"; output_file := "out.csv";
                                seed := Some 7%Z |} one_file 0%Z)) !! "out.csv"
         = Some (File (to_csv_text df')) ∧
         rows_kept table df' ∧ df_index df' = df_index table.
Proof.
  split; [exact table_wf|].
  destruct (C7_row_count_invariant table (Some 7%Z) 0%Z [] table_wf)
    as (_ & _ & _ & Hstages & Hmain).
  split; [exact Hstages|].
  apply (Hmain "in.csv" "out.csv" table_text one_file).
  - reflexivity.
  - reflexivity.
  - reflexivity.
  - discriminate.
  - apply not_elem_of_empty.
Defined.

Lemma C9_errors_logged_exit_zero_witness :
  (fs no_files !! input_file missing_input = None ∧
   exit_status (main missing_input no_files 0%Z) = 0%Z ∧
   ∃ e, main_try missing_input no_files 0%Z = inl (e, []) ∧
        exn_type e = FileNotFoundError) ∧
  (fs locked_output !! input_file Samples.seeded_run = Some (File table_text) ∧
   endswith (lower (input_file Samples.seeded_run)) ".csv" = true ∧
   read_csv_text table_text = Some table ∧
   NoDup (labels table) ∧
   fs locked_output !! output_file Samples.seeded_run = Some Locked ∧
   exit_status (main Samples.seeded_run locked_output 0%Z) = 0%Z ∧
   ∃ df' g' log e ev,
     apply_randomization table (seed Samples.seeded_run) 0%Z
       [ReadOk (input_file Samples.seeded_run)] = inr (df', g', log) ∧
     to_csv df' (output_file Samples.seeded_run) locked_output = inl e ∧
     main_try Samples.seeded_run locked_output 0%Z = inl (e, log) ∧
     end_log (main Samples.seeded_run locked_output 0%Z) = log ++ [ev] ∧
     level_of ev = ERROR ∧
     (ev = Failed e ∨ ev = Unexpected e) ∧
     end_world (main Samples.seeded_run locked_output 0%Z) = locked_output).
Proof.
  split.
  - split; [reflexivity|].
    destruct (C9_errors_logged_exit_zero missing_input no_files 0%Z)
      as (Hstatus & _ & Hmissing & _).
    split; [exact Hstatus|]. apply Hmissing. reflexivity.
  - split; [reflexivity|]. split; [reflexivity|]. split; [reflexivity|].
    split; [exact table_labels_distinct|]. split; [reflexivity|].
    destruct (C9_errors_logged_exit_zero Samples.seeded_run locked_output 0%Z)
      as (Hstatus & _ & _ & _ & _ & _ & _ & Hwrite).
    split; [exact Hstatus|].
    apply (Hwrite table_text table).
    + reflexivity.
    + reflexivity.
    + reflexivity.
    + exact table_labels_distinct.
    + left. reflexivity.
Defined.

(** Python ints beyond the floats and beyond 64 bits: the first make
    both numeric conversions raise; the second go through the floats, so
    that the integer cast gives the least 64-bit integer; an integer that
    only [uint64] holds wraps around in the cast, unless a negative
    integer beside it makes the column a float column. *)
Example large_integers :
  convert np_float64 huge_column = inl overflow_error ∧
  convert np_int64 huge_column = inl overflow_error ∧
  convert np_int64 wide_column
  = inr {| s_dtype := dt_int64; s_values := [VInt int64_min; VInt 1] |} ∧
  convert np_int64 unsigned_column
  = inr {| s_dtype := dt_int64; s_values := [VInt (-1); VInt 1] |} ∧
  convert np_int64 mixed_sign_column
  = inr {| s_dtype := dt_int64; s_values := [VInt int64_min; VInt (-1)] |}.
Proof. repeat split; vm_compute; reflexivity. Qed.

(** Why the Renamer and the Reorderer are stated for distinct labels:
    with two columns under one label the dictionary keeps one entry and
    both columns get one name, and selecting by label doubles them. *)
Example duplicate_labels :
  labels (randomize_column_names twins None 0%Z).1 = ["column_0"; "column_0"] ∧
  labels (reorder_columns twins None 0%Z).1 = ["a"; "a"; "a"; "a"].
Proof. split; vm_compute; reflexivity. Qed.

(** With [--seed 0] two runs from different generator states rename the
    columns differently. *)
Example seed_zero_not_reproducible :
  labels (randomize_column_names table (Some 0%Z) 0%Z).1 = ["column_1"; "column_0"] ∧
  labels (randomize_column_names table (Some 0%Z) 3%Z).1 = ["column_0"; "column_1"].
Proof. split; vm_compute; reflexivity. Qed.
End Examples.

(** * Further properties *)

(** ** Strings and the extension check *)

Section string_facts.
Implicit Types (s t a b : string).

Lemma length_lower s : String.length (lower s) = String.length s.
Proof. induction s as [|c s IH]; simpl; [done|by rewrite IH]. Qed.

Lemma lower_app a b : lower (a +:+ b) = lower a +:+ lower b.
Proof. induction a as [|c a IH]; simpl; [done|by rewrite IH]. Qed.

Lemma string_length_app a b :
  String.length (a +:+ b) = String.length a + String.length b.
Proof. induction a as [|c a IH]; simpl; [done|by rewrite IH]. Qed.

Lemma substring_all s : String.substring 0 (String.length s) s = s.
Proof. induction s as [|c s IH]; simpl; [done|by rewrite IH]. Qed.

Lemma substring_app_r a b :
  String.substring (String.length a) (String.length b) (a +:+ b) = b.
Proof. induction a as [|c a IH]; simpl; [apply substring_all|done]. Qed.

(** A string is its first [k] characters followed by the rest. *)
Lemma substring_split s k :
  k ≤ String.length s →
  s = String.substring 0 k s +:+ String.substring k (String.length s - k) s.
Proof.
  revert k. induction s as [|c s IH]; intros [|k] Hk; simpl in *; try lia.
  - done.
  - by rewrite substring_all.
  - change (String c s = String c (String.substring 0 k s
                                   +:+ String.substring k (String.length s - k) s)).
    f_equal. apply IH. lia.
Qed.

Lemma length_substring s k m :
  k + m ≤ String.length s → String.length (String.substring k m s) = m.
Proof.
  revert k m. induction s as [|c s IH]; intros [|k] [|m] Hk; simpl in *; try lia.
  - f_equal. apply IH. lia.
  - apply IH. lia.
  - apply IH. lia.
Qed.

Lemma string_app_inj_r a a' b b' :
  String.length b = String.length b' → a +:+ b = a' +:+ b' → b = b'.
Proof.
  revert a'. induction a as [|c a IH]; intros [|c' a'] Hlen Heq; simpl in *.
  - done.
  - exfalso. apply (f_equal String.length) in Heq.
    rewrite !string_length_app in Heq. simpl in Heq. lia.
  - exfalso. apply (f_equal String.length) in Heq.
    rewrite !string_length_app in Heq. simpl in Heq. lia.
  - injection Heq as _ Heq. by eapply IH.
Qed.

Lemma endswith_app a b : endswith (a +:+ b) b = true.
Proof.
  unfold endswith. rewrite string_length_app.
  apply andb_true_iff. split; [apply Nat.leb_le; lia|].
  apply bool_decide_eq_true.
  replace (String.length a + String.length b - String.length b)
    with (String.length a) by lia.
  apply substring_app_r.
Qed.

Lemma endswith_inv s t : endswith s t = true → ∃ a, s = a +:+ t.
Proof.
  unfold endswith. intros [Hle Hsub]%andb_true_iff.
  apply Nat.leb_le in Hle. apply bool_decide_eq_true in Hsub.
  exists (String.substring 0 (String.length s - String.length t) s).
  pose proof (substring_split s (String.length s - String.length t)) as Hsplit.
  replace (String.length s - (String.length s - String.length t))
    with (String.length t) in Hsplit by lia.
  rewrite Hsub in Hsplit. apply Hsplit. lia.
Qed.
End string_facts.

(** X1: a readable file passes the Input Validator exactly when its path
    is some stem followed by an extension that is [.csv] in some letter
    case. *)
Theorem validate_input_accepts (path text : string) (w : world) :
  fs w !! path = Some (File text) →
  validate_input path w = inr () ↔
  ∃ stem ext, path = stem +:+ ext ∧ lower ext = ".csv".
Proof.
  intros Hfile. unfold validate_input. rewrite Hfile. split.
  - destruct (endswith (lower path) ".csv") eqn:Hext; [intros _|done].
    assert (4 ≤ String.length path) as Hlen.
    { unfold endswith in Hext. apply andb_true_iff in Hext as [Hle _].
      apply Nat.leb_le in Hle. by rewrite length_lower in Hle. }
    exists (String.substring 0 (String.length path - 4) path),
           (String.substring (String.length path - 4) 4 path).
    pose proof (substring_split path (String.length path - 4)) as Hsplit.
    replace (String.length path - (String.length path - 4)) with 4 in Hsplit by lia.
    split; [apply Hsplit; lia|].
    apply endswith_inv in Hext as [a Ha].
    rewrite Hsplit, lower_app in Ha by lia.
    eapply string_app_inj_r; [|exact Ha].
    rewrite length_lower, length_substring; [done|lia].
  - intros (stem & ext & -> & Hext).
    by rewrite lower_app, Hext, endswith_app.
Qed.

(** ** Runs of [main] *)

Section run_facts.
Context {G : Type} `{!RandomSource G} `{!NumberSyntax} `{!CsvFormat}.
Implicit Types (df : DataFrame) (g : G) (log : list event) (w : world).
Implicit Types (args : Namespace).

(** Which exception a failed write raises. *)
Lemma to_csv_raises_class df path w e :
  to_csv df path w = inl e →
  (fs w !! path = Some Locked ∨ path ∈ unwritable w) ∧
  exn_type e
  = match fs w !! path with
    | Some Locked => PermissionError
    | _ => if no_such_file path w then FileNotFoundError else OSError
    end.
Proof.
  unfold to_csv. destruct (fs w !! path) as [[| |]|]; try case_bool_decide;
    try destruct (no_such_file path w); intros [= <-]; auto.
Qed.



End run_facts.

(** X2: which [except] clause reports which failure.  A missing input
    file (no file, or a link to none), a wrong extension and unparsable
    content are logged as the exception itself ([ParserError] by the
    [ValueError] clause, whose subclass it is); an input that cannot be
    opened is logged as "An unexpected error occurred".  A failed write
    is a [PermissionError], a [FileNotFoundError] or another [OSError];
    on an input that loads to a table with distinct labels it is what
    the [try] block raises, and the run logs a [FileNotFoundError] as the
    exception itself and the other two as "An unexpected error
    occurred". *)
Theorem main_failure_report {G : Type}
    `{!RandomSource G} `{!NumberSyntax} `{!CsvFormat}
    (args : Namespace) (w : world) (g : G) :
  (fs w !! input_file args = None ∨ fs w !! input_file args = Some Dangling →
     ∃ e, exn_type e = FileNotFoundError ∧ end_log (main args w g) = [Failed e]) ∧
  (fs w !! input_file args = Some Locked →
     ∃ e, exn_type e = Exception ∧ end_log (main args w g) = [Unexpected e]) ∧
  (∀ text, fs w !! input_file args = Some (File text) →
     endswith (lower (input_file args)) ".csv" = false →
     ∃ e, exn_type e = ValueError ∧ end_log (main args w g) = [Failed e]) ∧
  (∀ text, fs w !! input_file args = Some (File text) →
     endswith (lower (input_file args)) ".csv" = true →
     read_csv_text text = None →
     ∃ e, exn_type e = ParserError ∧ end_log (main args w g) = [Failed e]) ∧
  (∀ df e, to_csv df (output_file args) w = inl e →
     exn_type e = PermissionError ∨ exn_type e = FileNotFoundError ∨
     exn_type e = OSError) ∧
  (∀ e log, main_try args w g = inl (e, log) →
     (exn_type e = PermissionError ∨ exn_type e = OSError →
      end_log (main args w g) = log ++ [Unexpected e]) ∧
     (exn_type e = FileNotFoundError →
      end_log (main args w g) = log ++ [Failed e])) ∧
  (∀ text df,
     fs w !! input_file args = Some (File text) →
     endswith (lower (input_file args)) ".csv" = true →
     read_csv_text text = Some df →
     NoDup (labels df) →
     fs w !! output_file args = Some Locked ∨ output_file args ∈ unwritable w →
     ∃ df' g' log e,
       apply_randomization df (seed args) g [ReadOk (input_file args)]
       = inr (df', g', log) ∧
       to_csv df' (output_file args) w = inl e ∧
       main_try args w g = inl (e, log) ∧
       exn_type e
       = match fs w !! output_file args with
         | Some Locked => PermissionError
         | _ => if no_such_file (output_file args) w
                then FileNotFoundError else OSError
         end ∧
       end_log (main args w g)
       = log ++ [if bool_decide (exn_type e = FileNotFoundError)
                 then Failed e else Unexpected e]).
Proof.
  assert (∀ e log, main_try args w g = inl (e, log) →
     (exn_type e = PermissionError ∨ exn_type e = OSError →
      end_log (main args w g) = log ++ [Unexpected e]) ∧
     (exn_type e = FileNotFoundError →
      end_log (main args w g) = log ++ [Failed e])) as Hclause.
  { intros e log Htry. unfold main. rewrite Htry.
    destruct e as [cls msg]; simpl.
    split; [by intros [-> | ->]|by intros ->]. }
  split; [|split; [|split; [|split; [|split; [|split; [exact Hclause|]]]]]].
  - intros Hmissing. eexists. split; [|unfold main, main_try, validate_input;
      destruct Hmissing as [-> | ->]; reflexivity]. done.
  - intros Hlocked. eexists. split; [|unfold main, main_try, validate_input;
      rewrite Hlocked; reflexivity]. done.
  - intros text Hfile Hext. eexists. split; [|unfold main, main_try, validate_input;
      rewrite Hfile, Hext; reflexivity]. done.
  - intros text Hfile Hext Hparse. eexists.
    split; [|unfold main, main_try, validate_input, read_csv;
      rewrite Hfile, Hext, Hparse; reflexivity]. done.
  - intros df e [_ Hclass]%to_csv_raises_class. rewrite Hclass.
    destruct (fs w !! output_file args) as [[| |]|];
      try destruct (no_such_file _ w); auto.
  - intros text df Hfile Hext Hread Hnd Hout.
    destruct (main_try_reaches_write args w g text df Hfile Hext Hread Hnd)
      as (df' & g' & log & Hrun & Htry).
    destruct (to_csv_fails df' _ w Hout) as [e Hwrite]. rewrite Hwrite in Htry.
    pose proof (to_csv_raises_class _ _ _ _ Hwrite) as [_ Hclass].
    exists df', g', log, e. do 4 (split; [done|]).
    destruct (Hclause e log Htry) as [Hunexpected Hfailed].
    case_bool_decide as Hfnf; [by apply Hfailed|apply Hunexpected].
    revert Hfnf. rewrite Hclass.
    destruct (fs w !! output_file args) as [[| |]|];
      try destruct (no_such_file (output_file args) w);
      intros Hfnf; first [by left | by right | done].
Qed.


(** X4: with a seed other than 0 a run does not depend on the state the
    generator is in when the program starts. *)
Theorem main_reproducible {G : Type}
    `{!RandomSource G} `{!NumberSyntax} `{!CsvFormat}
    (args : Namespace) (w : world) (s : Z) (g g' : G) :
  seed args = Some s → s ≠ 0%Z → main args w g = main args w g'.
Proof.
  intros Hseed Hs. unfold main, main_try, apply_randomization.
  rewrite Hseed.
  destruct (validate_input _ w); [done|].
  destruct (read_csv _ w) as [|df]; [done|].
  by rewrite (proj1 (stages_reseed_nonzero df s g g' [] Hs)).
Qed.

(** ** The Type Coercer, column by column *)

Section coercer_columns.
Context {G : Type} `{!RandomSource G} `{!NumberSyntax}.
Implicit Types (df : DataFrame) (g : G) (log : list event) (s : Series).
Implicit Types (c : string * Series) (cs pre todo : list (string * Series)).

Lemma setitem_other_labels cs col s :
  col ∉ cs.*1 → (λ c, if has_label col c then (col, s) else c) <$> cs = cs.
Proof.
  intros Hnotin. rewrite <-(list_fmap_id cs) at 2. apply list_fmap_ext.
  intros i c Hc. unfold has_label. rewrite bool_decide_eq_false_2; [done|].
  intros Heq. apply Hnotin. rewrite <-Heq.
  apply list_elem_of_fmap_2. by eapply list_elem_of_lookup_2.
Qed.

(** Under distinct labels an assignment replaces one column in place. *)
Lemma setitem_unique idx pre c todo s :
  NoDup (pre ++ c :: todo).*1 →
  setitem {| df_index := idx; df_columns := pre ++ c :: todo |} c.1 s
  = {| df_index := idx; df_columns := pre ++ (c.1, s) :: todo |}.
Proof.
  rewrite fmap_app, fmap_cons. intros Hnd.
  apply NoDup_app in Hnd as (_ & Hpre & [Hc _]%NoDup_cons).
  unfold setitem; simpl. f_equal.
  rewrite fmap_app, fmap_cons.
  rewrite (setitem_other_labels pre), (setitem_other_labels todo); [|done|].
  - unfold has_label. by rewrite bool_decide_eq_true_2.
  - intros Hin. apply (Hpre _ Hin). by left.
Qed.

(** The loop, started on the columns [todo] with the columns [pre]
    already done, processes each of [todo] once, in order, and logs one
    event for each. *)
Lemma change_columns_processed idx pre todo g log :
  NoDup (pre ++ todo).*1 →
  ∃ todo' g' events,
    change_columns todo.*1 ({| df_index := idx; df_columns := pre ++ todo |}, g, log)
    = inr ({| df_index := idx; df_columns := pre ++ todo' |}, g', log ++ events) ∧
    Forall3 processed todo todo' events.
Proof.
  revert pre g log. induction todo as [|c todo IH]; intros pre g log Hnd.
  { exists [], g, []. rewrite !app_nil_r. split; [done|constructor]. }
  rewrite fmap_cons. cbn [change_columns].
  set (df := {| df_index := idx; df_columns := pre ++ c :: todo |}).
  assert (getitem df c.1 = Some (inl c.2)) as Hget.
  { apply getitem_unique; [exact Hnd|]. apply elem_of_app. right. by left. }
  destruct (change_column_step c.1 df g log c.2 Hget) as (t & g1 & _ & Hin & ->).
  assert (∃ c1 ev, processed c c1 ev ∧
            match convert t c.2 with
            | inr s' => (setitem df c.1 s', g1, log ++ [Converted c.1 (s_dtype c.2) t])
            | inl e => (df, g1, log ++ [ConvertFailed c.1 (s_dtype c.2) t e])
            end
            = ({| df_index := idx; df_columns := pre ++ c1 :: todo |}, g1, log ++ [ev]))
    as (c1 & ev & Hproc & ->).
  { destruct (convert t c.2) as [e|s'] eqn:Hconv.
    - exists c, (ConvertFailed c.1 (s_dtype c.2) t e). split; [|done].
      split; [done|]. exists t. split; [done|]. by rewrite Hconv.
    - exists (c.1, s'), (Converted c.1 (s_dtype c.2) t).
      split; [|by unfold df; rewrite setitem_unique].
      split; [done|]. exists t. split; [done|]. by rewrite Hconv. }
  destruct (IH (pre ++ [c1]) g1 (log ++ [ev])) as (todo' & g' & events & Hrun & Hall).
  { rewrite <-(assoc_L (++)). simpl.
    rewrite !fmap_app, !fmap_cons in *. by rewrite (proj1 Hproc). }
  rewrite <-(assoc_L (++)) in Hrun. simpl in Hrun. rewrite Hrun.
  exists (c1 :: todo'), g', (ev :: events).
  rewrite <-!(assoc_L (++)). simpl. split; [done|]. by constructor.
Qed.
End coercer_columns.

Lemma coercer_run {G : Type} `{!RandomSource G} `{!NumberSyntax}
    (df : DataFrame) (seed : option Z) (g : G) (log : list event) :
  NoDup (labels df) →
  ∃ df' g' events,
    change_data_types df seed g log = inr (df', g', log ++ events) ∧
    df_index df' = df_index df ∧
    Forall3 processed (df_columns df) (df_columns df') events.
Proof.
  intros Hnd. destruct df as [idx cs].
  destruct (change_columns_processed idx [] cs (reseed seed g) log Hnd)
    as (cs' & g' & events & Hrun & Hall).
  by exists {| df_index := idx; df_columns := cs' |}, g', events.
Qed.

(** X5: on a table with distinct labels the Type Coercer finishes and
    processes every column exactly once, in column order: column i of the
    result carries the label of column i of the input and is either its
    conversion to a type drawn from its candidates or, when that
    conversion raised, the input column itself; event i of the log
    reports what happened to column i. *)
Theorem change_data_types_processed {G : Type} `{!RandomSource G} `{!NumberSyntax}
    (df : DataFrame) (seed : option Z) (g : G) (log : list event) :
  NoDup (labels df) →
  ∃ df' g' events,
    change_data_types df seed g log = inr (df', g', log ++ events) ∧
    df_index df' = df_index df ∧
    Forall3 processed (df_columns df) (df_columns df') events.
Proof. apply coercer_run. Qed.

Section processed_facts.
Context `{!NumberSyntax}.
Implicit Types (c : string * Series) (cs : list (string * Series)).
Implicit Types (ev : event) (events : list event) (s : Series).

Lemma processed_event c c' ev :
  processed c c' ev →
  event_column ev = Some c.1 ∧ (level_of ev = INFO ∨ level_of ev = ERROR).
Proof.
  intros (_ & t & _ & Hconv).
  destruct (convert t c.2); destruct Hconv as [_ ->]; simpl; auto.
Qed.

Lemma processed_all_events cs cs' events :
  Forall3 processed cs cs' events →
  cs'.*1 = cs.*1 ∧
  event_column <$> events = Some <$> cs.*1 ∧
  Forall (λ ev, level_of ev = INFO ∨ level_of ev = ERROR) events.
Proof.
  induction 1 as [|c c' ev cs cs' events Hproc _ (IH1 & IH2 & IH3)]; [done|].
  destruct (processed_event _ _ _ Hproc) as [Hcol Hlevel].
  rewrite !fmap_cons, IH1, IH2, Hcol, (proj1 Hproc). by repeat split; [constructor].
Qed.

(** A column without rows converts to every type. *)
Lemma convert_empty new_type s :
  s_values s = [] → ∃ s', convert new_type s = inr s' ∧ s_values s' = [].
Proof.
  intros Hempty. unfold convert. rewrite Hempty. simpl.
  repeat (destruct (py_eq new_type _); [by eexists|]). by eexists.
Qed.

Lemma processed_all_empty cs cs' events :
  Forall3 processed cs cs' events →
  Forall (λ c, s_values c.2 = []) cs →
  Forall (λ c, s_values c.2 = []) cs' ∧ Forall (λ ev, level_of ev = INFO) events.
Proof.
  induction 1 as [|c c' ev cs cs' events (_ & t & _ & Hconv) _ IH]; [done|].
  intros [Hc Hcs]%Forall_cons. destruct (IH Hcs) as [IH1 IH2].
  destruct (convert_empty t c.2 Hc) as (s' & Hs' & Hvalues).
  rewrite Hs' in Hconv. destruct Hconv as [Hc' ->].
  split; constructor; try done. by rewrite Hc'.
Qed.

(** X16: a conversion raises in exactly two cases.  The target is a
    numeric type and the column holds a Python int too large for a
    float: [pd.to_numeric] raises [OverflowError].  Or the target is the
    integer type, [pd.to_numeric] returns and has found an infinite
    value: the integer cast raises [IntCastingNaNError].  The conversions
    to text and to categorical never raise. *)
Lemma convert_raises new_type s e :
  convert new_type s = inl e ↔
  ((py_eq new_type np_int64 = true ∨ py_eq new_type np_float64 = true) ∧
   Exists (λ v, too_large v = true) (s_values s) ∧
   e = overflow_error) ∨
  (py_eq new_type np_int64 = true ∧
   ∃ ns, to_numeric (s_values s) = Some ns ∧
         Exists (λ n, infinite n = true) ns ∧
         e = int_casting_error).
Proof.
  unfold convert. split.
  - destruct (py_eq new_type np_int64) eqn:Hint.
    { destruct (to_numeric (s_values s)) as [ns|] eqn:Hns.
      - destruct (astype_int64 _) as [zs|] eqn:Hzs; [done|]. intros [= <-].
        right. split; [done|]. exists ns. split; [done|]. split; [|done].
        destruct (decide (Forall (λ n, infinite n = false) ns)) as [Hfin|Hinf].
        + destruct (astype_int64_fillna_zero _ Hfin) as (zs & Hzs' & _). congruence.
        + apply not_Forall_Exists in Hinf; [|intros n; apply _].
          eapply Exists_impl; [exact Hinf|]. intros n Hn; simpl in Hn.
          by destruct (infinite n).
      - intros [= <-]. left. split; [by left|]. by apply to_numeric_raises in Hns. }
    destruct (py_eq new_type np_float64) eqn:Hfloat.
    { destruct (to_numeric (s_values s)) as [ns|] eqn:Hns; [done|].
      intros [= <-]. left. split; [by right|]. by apply to_numeric_raises in Hns. }
    by repeat (destruct (py_eq new_type _); [done|]).
  - intros [([Hint | Hfloat] & Hlarge%to_numeric_raises & ->)
           |(Hint & ns & Hns & Hinf & ->)].
    + by rewrite Hint, Hlarge.
    + destruct (py_eq new_type np_int64); by rewrite ?Hfloat, Hlarge.
    + by rewrite Hint, Hns, (astype_int64_infinite (NInt 0)).
Qed.
End processed_facts.

(** X6: on a table with distinct labels the Type Coercer adds to the log
    exactly one record per column, in column order, each at INFO level
    (the column was converted) or at ERROR level (its conversion failed),
    and it leaves the labels and their order as they were. *)
Theorem change_data_types_log {G : Type} `{!RandomSource G} `{!NumberSyntax}
    (df : DataFrame) (seed : option Z) (g : G) (log : list event) :
  NoDup (labels df) →
  ∃ df' g' events,
    change_data_types df seed g log = inr (df', g', log ++ events) ∧
    labels df' = labels df ∧
    event_column <$> events = Some <$> labels df ∧
    Forall (λ ev, level_of ev = INFO ∨ level_of ev = ERROR) events.
Proof.
  intros Hnd.
  destruct (coercer_run df seed g log Hnd)
    as (df' & g' & events & Hrun & _ & Hall).
  exists df', g', events. split; [done|]. by apply processed_all_events.
Qed.

(** X7: a numeric column (integer or floating-point) of a table with
    distinct labels is always converted, never left as it is and never
    reported as failed: it becomes the text column of its values' string
    forms or the categorical column of its values. *)
Theorem numeric_column_converted {G : Type} `{!RandomSource G} `{!NumberSyntax}
    (df : DataFrame) (seed : option Z) (g : G) (log : list event)
    (i : nat) (c : string * Series) :
  NoDup (labels df) →
  df_columns df !! i = Some c →
  py_in (py_dtype (s_dtype c.2)) numeric_types = true →
  ∃ df' g' events t s',
    change_data_types df seed g log = inr (df', g', log ++ events) ∧
    df_columns df' !! i = Some (c.1, s') ∧
    events !! i = Some (Converted c.1 (s_dtype c.2) t) ∧
    ((t = py_str "string" ∧
      s' = {| s_dtype := dt_object;
              s_values := (λ v, VStr (py_repr v)) <$> s_values c.2 |}) ∨
     (t = py_str "category" ∧
      s' = {| s_dtype := dt_category; s_values := s_values c.2 |})).
Proof.
  intros Hnd Hc Hnum.
  destruct (coercer_run df seed g log Hnd)
    as (df' & g' & events & Hrun & _ & Hall).
  destruct (Forall3_lookup_l _ _ _ _ _ _ Hall Hc)
    as ([l s'] & ev & Hc' & Hev & Hl & t & Hin & Hconv).
  simpl in Hl. subst l.
  exists df', g', events, t, s'. split; [done|]. split; [done|].
  assert (possible_types (py_dtype (s_dtype c.2))
          = [py_str "string"; py_str "category"]) as Hcandidates
    by by apply numeric_dtype_inv in Hnum as [-> | ->].
  rewrite Hcandidates in Hin.
  apply elem_of_cons in Hin as [-> | Hin]; [|apply list_elem_of_singleton in Hin as ->];
    simpl in Hconv; destruct Hconv as [-> ->]; auto.
Qed.

(** X8: a table without rows (a header-only file) is converted without
    any failure: every column is converted, every record is at INFO
    level, and the result has no rows either. *)
Theorem header_only_table {G : Type} `{!RandomSource G} `{!NumberSyntax}
    (df : DataFrame) (seed : option Z) (g : G) (log : list event) :
  NoDup (labels df) →
  Forall (λ c, s_values c.2 = []) (df_columns df) →
  ∃ df' g' events,
    change_data_types df seed g log = inr (df', g', log ++ events) ∧
    Forall (λ c', s_values c'.2 = []) (df_columns df') ∧
    Forall (λ ev, level_of ev = INFO) events.
Proof.
  intros Hnd Hempty.
  destruct (coercer_run df seed g log Hnd)
    as (df' & g' & events & Hrun & _ & Hall).
  exists df', g', events. split; [done|]. by eapply processed_all_empty.
Qed.

(** ** What the conversions do to types and values *)

Section conversion_types.
Context `{!NumberSyntax}.
Implicit Types (s : Series) (d : dtype) (t : pyobj).

Lemma possible_types_universe d t :
  t ∈ possible_types (py_dtype d) →
  t ∈ [np_int64; np_float64; py_str "string"; py_str "category"].
Proof.
  intros Hin.
  assert (∀ l : list pyobj,
             t ∈ l → l ⊆ [np_int64; np_float64; py_str "string"; py_str "category"] →
             t ∈ [np_int64; np_float64; py_str "string"; py_str "category"])
    as Hsub by (intros l Ht Hl; by apply Hl).
  eapply Hsub; [exact Hin|]. clear.
  assert (∀ l : list pyobj,
             l `sublist_of` [np_int64; np_float64; py_str "string"; py_str "category"] →
             l ⊆ [np_int64; np_float64; py_str "string"; py_str "category"])
    as Hsublist by (intros l Hl; by apply sublist_subseteq).
  apply Hsublist.
  destruct d as [| | | |name| |];
    try (vm_compute possible_types;
         by repeat first [apply sublist_nil_l | apply sublist_skip | apply sublist_cons]).
  unfold possible_types; simpl.
  repeat (case_bool_decide; simpl);
    by repeat first [apply sublist_nil_l | apply sublist_skip | apply sublist_cons].
Qed.

Lemma convert_dtype t s s' :
  convert t s = inr s' →
  (t = np_int64 → s_dtype s' = dt_int64) ∧
  (t = np_float64 → s_dtype s' = dt_float64) ∧
  (t = py_str "string" → s_dtype s' = dt_object) ∧
  (t = py_str "category" → s_dtype s' = dt_category).
Proof.
  intros Hconv. repeat split; intros ->; unfold convert in Hconv; simpl in Hconv.
  - destruct (to_numeric (s_values s)); [|done].
    destruct (astype_int64 _); [|done]. by injection Hconv as <-.
  - destruct (to_numeric (s_values s)); [|done]. by injection Hconv as <-.
  - by injection Hconv as <-.
  - by injection Hconv as <-.
Qed.

Lemma in_int64_64_bits z : in_int64 z = true → in_64_bits z = true.
Proof.
  unfold in_int64, in_64_bits, int64_min, int64_max, uint64_max.
  intros [Hlo Hhi]%andb_true_iff. apply Z.leb_le in Hlo, Hhi.
  apply andb_true_iff; split; apply Z.leb_le; lia.
Qed.

Lemma wrap_int64_id z : in_int64 z = true → wrap_int64 z = z.
Proof.
  unfold in_int64, wrap_int64, int64_min, int64_max.
  intros [Hlo Hhi]%andb_true_iff. apply Z.leb_le in Hlo, Hhi.
  rewrite Z.mod_small; lia.
Qed.

Lemma fmap_repr_text (vs : list cell) :
  forallb is_text vs = true → (λ v, VStr (py_repr v)) <$> vs = vs.
Proof.
  induction vs as [|v vs IH]; [done|]. rewrite fmap_cons. simpl.
  intros [Hv Hvs]%andb_true_iff. rewrite IH by done.
  by destruct v.
Qed.
End conversion_types.

(** X9: a conversion to a candidate type that returns a column returns
    one of another dtype than the column had, with one exception: a text
    ([object]) column for which ['string'] is drawn comes back as an
    [object] column. *)
Theorem conversion_changes_dtype `{!NumberSyntax} (s s' : Series) (t : pyobj) :
  t ∈ possible_types (py_dtype (s_dtype s)) →
  convert t s = inr s' →
  s_dtype s' ≠ s_dtype s ∨
  (s_dtype s = dt_object ∧ t = py_str "string" ∧ s_dtype s' = dt_object).
Proof.
  intros Hin Hconv.
  pose proof (possible_types_universe _ _ Hin) as Huniverse.
  destruct (convert_dtype _ _ _ Hconv) as (Hint & Hfloat & Hstring & Hcategory).
  assert (s_dtype s' = dt_int64 ∨ s_dtype s' = dt_float64 ∨
          s_dtype s' = dt_object ∨ s_dtype s' = dt_category) as Htarget.
  { repeat (apply elem_of_cons in Huniverse as [-> | Huniverse]); auto.
    by apply elem_of_nil in Huniverse. }
  destruct (s_dtype s) as [| | | |name| |] eqn:Hd;
    try (vm_compute possible_types in Hin;
         repeat (apply elem_of_cons in Hin as [-> | Hin]);
         try (by apply elem_of_nil in Hin);
         first [ left; rewrite ?(Hint eq_refl), ?(Hfloat eq_refl),
                   ?(Hstring eq_refl), ?(Hcategory eq_refl); discriminate
               | right; by rewrite (Hstring eq_refl) ]).
  left. by destruct Htarget as [-> | [-> | [-> | ->]]].
Qed.

(** X10: converting to text twice is converting once, and a text column
    whose cells are all strings is left exactly as it is. *)
Theorem text_conversion_idempotent `{!NumberSyntax} (s : Series) :
  (∀ s', convert (py_str "string") s = inr s' →
         convert (py_str "string") s' = inr s') ∧
  (s_dtype s = dt_object → forallb is_text (s_values s) = true →
   convert (py_str "string") s = inr s).
Proof.
  split.
  - intros s' [= <-]. unfold convert; simpl. do 2 f_equal.
    rewrite <-list_fmap_compose. by apply list_fmap_ext.
  - destruct s as [d vs]; simpl. intros -> Htext.
    unfold convert; simpl. by rewrite fmap_repr_text.
Qed.

(** X11: an integer column converted to text and then to integer is the
    column it was, when its values are in the 64-bit range and the
    numeric parser reads each decimal form back as that integer. *)
Theorem integer_text_round_trip `{!NumberSyntax} (zs : list Z) :
  Forall (λ z, in_int64 z = true ∧ parse_number (pretty z) = Some (NInt z)) zs →
  ∃ s', convert (py_str "string") {| s_dtype := dt_int64; s_values := VInt <$> zs |}
        = inr s' ∧
        s_dtype s' = dt_object ∧
        convert np_int64 s' = inr {| s_dtype := dt_int64; s_values := VInt <$> zs |}.
Proof.
  intros Hzs. eexists. split; [reflexivity|]. split; [reflexivity|].
  unfold convert; simpl. rewrite <-list_fmap_compose.
  assert (to_numeric ((λ v, VStr (py_repr v)) ∘ VInt <$> zs) = Some (NInt <$> zs))
    as ->.
  { unfold to_numeric.
    assert (existsb too_large ((λ v, VStr (py_repr v)) ∘ VInt <$> zs) = false) as ->
      by (clear; by induction zs).
    rewrite <-list_fmap_compose.
    assert (coerce_cell ∘ ((λ v, VStr (py_repr v)) ∘ VInt) <$> zs = NInt <$> zs) as ->.
    { apply Forall_fmap_ext_1. eapply Forall_impl; [exact Hzs|].
      intros z [Hrange Hparse]; simpl. rewrite Hparse; simpl.
      by rewrite (in_int64_64_bits z Hrange). }
    assert (integer_column (NInt <$> zs) = true) as ->; [|done].
    unfold integer_column.
    assert (forallb number_is_int (NInt <$> zs) = true) as ->
      by (clear; by induction zs).
    assert (existsb number_is_uint (NInt <$> zs) = false) as ->; [|done].
    clear -Hzs. induction Hzs as [|z zs [Hrange _] _ IH]; [done|].
    rewrite fmap_cons. simpl. rewrite IH, orb_false_r.
    apply Z.ltb_ge. unfold in_int64 in Hrange.
    apply andb_true_iff in Hrange as [_ Hhi]. by apply Z.leb_le in Hhi. }
  assert (astype_int64 (fillna (NInt 0) (NInt <$> zs)) = Some zs) as ->; [|done].
  unfold astype_int64, fillna. rewrite <-list_fmap_compose. apply mapM_Some.
  apply Forall2_fmap_l, Forall_Forall2_diag. eapply Forall_impl; [exact Hzs|].
  intros z [Hrange _]; simpl. unfold fill_cell; simpl. by rewrite wrap_int64_id.
Qed.

(** ** The stages in sequence *)

Lemma stages_run {G : Type} `{!RandomSource G} `{!NumberSyntax}
    (df : DataFrame) (seed : option Z) (g : G) (log : list event) :
  NoDup (labels df) →
  ∃ df' g' events,
    apply_randomization df seed g log = inr (df', g', log ++ events) ∧
    labels df' ≡ₚ column_name <$> seq 0 (length (df_columns df)) ∧
    NoDup (labels df') ∧
    length events = length (df_columns df) ∧
    Forall (λ ev, level_of ev = INFO ∨ level_of ev = ERROR) events ∧
    df_index df' = df_index df.
Proof.
  intros Hnd. unfold apply_randomization.
  pose proof (labels_randomize_column_names df seed g Hnd) as Hlabels1.
  pose proof (randomize_column_names_table df seed g) as Htable1.
  destruct (randomize_column_names df seed g) as [df1 g1]; simpl in Hlabels1, Htable1.
  assert (labels df1 ≡ₚ column_name <$> seq 0 (length (df_columns df))) as Hperm1.
  { rewrite Hlabels1, new_names_perm. unfold labels. by rewrite length_fmap. }
  assert (NoDup (labels df1)) as Hnd1.
  { rewrite Hperm1. apply NoDup_column_names. }
  pose proof (columns_reorder_columns df1 seed g1 Hnd1) as Hperm2.
  pose proof (reorder_columns_table df1 seed g1) as Htable2.
  destruct (reorder_columns df1 seed g1) as [df2 g2]; simpl in Hperm2, Htable2.
  assert (labels df2 ≡ₚ labels df1) as Hlabels2 by (unfold labels; by rewrite Hperm2).
  assert (NoDup (labels df2)) as Hnd2 by by rewrite Hlabels2.
  destruct (coercer_run df2 seed g2 log Hnd2)
    as (df' & g' & events & Hrun & Hidx & Hall).
  destruct (processed_all_events _ _ _ Hall) as (Hlabels3 & Hcols & Hlevels).
  exists df', g', events. split; [done|].
  fold (labels df') in Hlabels3. fold (labels df2) in Hlabels3, Hcols.
  split; [by rewrite Hlabels3, Hlabels2|].
  split; [by rewrite Hlabels3|].
  split.
  { rewrite <-(length_fmap event_column), Hcols, length_fmap, Hlabels2, Hperm1.
    by rewrite length_fmap, length_seq. }
  split; [done|]. by rewrite Hidx, Htable2, Htable1.
Qed.

(** X12: on a table with n distinct labels the three stages in sequence
    finish; the header of the result is a permutation of
    [column_0 .. column_{n-1}] without repetition, the row index is as
    long as before, and the log has grown by one record per column. *)
Theorem pipeline_header {G : Type} `{!RandomSource G} `{!NumberSyntax}
    (df : DataFrame) (seed : option Z) (g : G) (log : list event) :
  NoDup (labels df) →
  ∃ df' g' events,
    apply_randomization df seed g log = inr (df', g', log ++ events) ∧
    labels df' ≡ₚ column_name <$> seq 0 (length (df_columns df)) ∧
    NoDup (labels df') ∧
    length events = length (df_columns df) ∧
    Forall (λ ev, level_of ev = INFO ∨ level_of ev = ERROR) events ∧
    df_index df' = df_index df.
Proof. apply stages_run. Qed.


(** ** Shuffles seeded alike *)

Section shuffle_indices.
Context {G : Type} `{!RandomSource G}.

Lemma swap_fmap {A B : Type} (f : A → B) (x : list A) i j :
  PyRandom.swap (f <$> x) i j = f <$> PyRandom.swap x i j.
Proof.
  unfold PyRandom.swap. rewrite !list_lookup_fmap.
  destruct (x !! i) as [xi|], (x !! j) as [xj|]; simpl; try done.
  by rewrite !list_fmap_insert.
Qed.

(** Which positions a shuffle exchanges depends on the generator and on
    the length of the list, not on what the list holds. *)
Lemma shuffle_from_fmap {A B : Type} (f : A → B) i (x : list A) (g : G) :
  PyRandom.shuffle_from i (f <$> x) g
  = (f <$> (PyRandom.shuffle_from i x g).1, (PyRandom.shuffle_from i x g).2).
Proof.
  revert x g. induction i as [|i IH]; intros x g; simpl; [done|].
  destruct (rng_below g (S (S i))) as [j g']. by rewrite swap_fmap, IH.
Qed.

Lemma shuffle_fmap {A B : Type} (f : A → B) (x : list A) (g : G) :
  PyRandom.shuffle (f <$> x) g
  = (f <$> (PyRandom.shuffle x g).1, (PyRandom.shuffle x g).2).
Proof. unfold PyRandom.shuffle. by rewrite length_fmap, shuffle_from_fmap. Qed.

Lemma list_as_indices {A : Type} (d : A) (x : list A) :
  x = (λ i, default d (x !! i)) <$> seq 0 (length x).
Proof.
  apply list_eq. intros i. rewrite list_lookup_fmap.
  destruct (x !! i) as [a|] eqn:Ha.
  - rewrite lookup_seq_lt by by eapply lookup_lt_Some. simpl. by rewrite Ha.
  - rewrite lookup_seq_ge; [done|]. by apply lookup_ge_None.
Qed.

(** A shuffle of any list is the shuffle of its positions, read back. *)
Lemma shuffle_as_indices {A : Type} (d : A) (x : list A) (g : G) :
  (PyRandom.shuffle x g).1
  = (λ i, default d (x !! i)) <$> (PyRandom.shuffle (seq 0 (length x)) g).1.
Proof. rewrite (list_as_indices d x) at 1. by rewrite shuffle_fmap. Qed.

Lemma seed_permutation_perm (s : Z) (n : nat) : seed_permutation s n ≡ₚ seq 0 n.
Proof. apply shuffle_perm. Qed.

(** Selecting, by label, the columns at given positions. *)
Lemma select_positions (cs : list (string * Series)) (p : list nat) :
  NoDup cs.*1 →
  Forall (λ i, i < length cs) p →
  flat_map (λ l, List.filter (has_label l) cs) ((λ i, default "" (cs.*1 !! i)) <$> p)
  = omap (λ i, cs !! i) p.
Proof.
  intros Hnd. induction 1 as [|i p Hi _ IH]; [done|].
  destruct (lookup_lt_is_Some_2 cs i Hi) as [c Hc].
  assert (default "" (cs.*1 !! i) = c.1) as Hlabel
    by by rewrite list_lookup_fmap, Hc.
  rewrite fmap_cons. cbn [flat_map]. rewrite Hlabel, IH.
  rewrite (filter_has_label_unique cs c Hnd) by by eapply list_elem_of_lookup_2.
  change (omap (λ i, cs !! i) (i :: p))
    with (match cs !! i with
          | Some c => c :: omap (λ i, cs !! i) p
          | None => omap (λ i, cs !! i) p
          end).
  by rewrite Hc.
Qed.
End shuffle_indices.

(** X14: with a seed other than 0 the Renamer and the Reorderer shuffle
    alike.  Let p be the order in which the seeded shuffle leaves the
    positions 0 .. n-1.  On any table with n distinct labels the Renamer
    gives the column at position k the name [column_{p[k]}], and the
    Reorderer puts at position k the column that was at position p[k]. *)
Theorem seed_coupling {G : Type} `{!RandomSource G}
    (df : DataFrame) (s : Z) (g g' : G) :
  s ≠ 0%Z →
  NoDup (labels df) →
  let p := seed_permutation s (length (df_columns df)) in
  p ≡ₚ seq 0 (length (df_columns df)) ∧
  labels (randomize_column_names df (Some s) g).1 = column_name <$> p ∧
  df_columns (reorder_columns df (Some s) g').1 = omap (λ i, df_columns df !! i) p.
Proof.
  intros Hs Hnd p.
  assert (length (labels df) = length (df_columns df)) as Hlen by apply length_fmap.
  split; [apply seed_permutation_perm|]. split.
  - rewrite labels_randomize_column_names by done.
    unfold new_names. rewrite reseed_nonzero by done.
    by rewrite shuffle_fmap, Hlen.
  - rewrite reorder_columns_table. unfold select; simpl.
    rewrite reseed_nonzero by done.
    rewrite (shuffle_as_indices "" (labels df)), Hlen.
    apply select_positions; [done|].
    apply Forall_forall. intros i Hi.
    unfold p in *. rewrite seed_permutation_perm in Hi.
    apply elem_of_seq in Hi. lia.
Qed.

(** ** Tables with fewer than two columns *)

Lemma shuffle_short {G : Type} `{!RandomSource G} {A : Type} (x : list A) (g : G) :
  length x ≤ 1 → PyRandom.shuffle x g = (x, g).
Proof. destruct x as [|a [|b x]]; simpl; [done..|lia]. Qed.

(** X15: on a table with fewer than two columns no random number is
    drawn: the Renamer names the columns [column_0 ..] in order and
    leaves the data, the Reorderer returns the table as it is, and both
    leave the generator as the seeding left it. *)
Theorem small_tables {G : Type} `{!RandomSource G}
    (df : DataFrame) (seed : option Z) (g : G) :
  length (df_columns df) ≤ 1 →
  (randomize_column_names df seed g).2 = reseed seed g ∧
  labels (randomize_column_names df seed g).1
  = column_name <$> seq 0 (length (df_columns df)) ∧
  (df_columns (randomize_column_names df seed g).1).*2 = (df_columns df).*2 ∧
  reorder_columns df seed g = (df, reseed seed g).
Proof.
  intros Hlen.
  assert (length (labels df) ≤ 1) as Hlabels by (unfold labels; by rewrite length_fmap).
  unfold randomize_column_names, reorder_columns.
  rewrite !shuffle_short by (by rewrite ?length_fmap, ?length_seq).
  destruct df as [idx [|[l s] [|c cs]]]; simpl in *; try lia.
  - done.
  - repeat split.
    + unfold labels, py_dict; simpl. by rewrite lookup_insert_eq.
    + unfold select; simpl. unfold has_label; simpl.
      by rewrite bool_decide_eq_true_2.
Qed.

(** ** The candidates and the column's own type *)

(** X17: whatever the dtype of a column, none of its candidate types
    compares equal to it, and the candidates are a selection, in order
    and without repetition, of integer, floating-point, text and
    categorical. *)
Theorem original_type_removed (d : dtype) :
  py_in (py_dtype d) (possible_types (py_dtype d)) = false ∧
  NoDup (possible_types (py_dtype d)) ∧
  possible_types (py_dtype d)
    `sublist_of` [np_int64; np_float64; py_str "string"; py_str "category"].
Proof.
  assert (NoDup [np_int64; np_float64; py_str "string"; py_str "category"]) as Hnd.
  { repeat (apply NoDup_cons; split); try apply NoDup_nil_2;
      rewrite ?not_elem_of_cons; repeat split; try discriminate; apply not_elem_of_nil. }
  assert (possible_types (py_dtype d)
            `sublist_of` [np_int64; np_float64; py_str "string"; py_str "category"])
    as Hsub.
  { destruct d as [| | | |name| |];
      try (vm_compute possible_types;
           by repeat first [apply sublist_nil_l | apply sublist_skip | apply sublist_cons]).
    unfold possible_types; simpl.
    repeat (case_bool_decide; simpl);
      by repeat first [apply sublist_nil_l | apply sublist_skip | apply sublist_cons]. }
  split; [|split; [by eapply sublist_NoDup|done]].
  destruct d as [| | | |name| |]; try reflexivity.
  unfold possible_types; simpl.
  repeat (case_bool_decide; simpl); subst; try done;
    repeat (rewrite ?bool_decide_eq_false_2 by done; simpl); try done.
  all: simpl; unfold py_in; simpl; rewrite ?bool_decide_eq_false_2 by done; done.
Qed.

(** ** The further properties at concrete inputs *)

Module Further.
Import Reference Samples.

Lemma validate_input_accepts_witness :
  fs one_file !! "in.csv" = Some (File table_text) ∧
  (validate_input "in.csv" one_file = inr () ↔
   ∃ stem ext, "in.csv" = stem +:+ ext ∧ lower ext = ".csv").
Proof.
  split; [reflexivity|].
  apply (validate_input_accepts "in.csv" table_text one_file). reflexivity.
Defined.

Lemma main_failure_report_witness :
  ((fs no_files !! input_file missing_input = None ∨
    fs no_files !! input_file missing_input = Some Dangling) ∧
   ∃ e, exn_type e = FileNotFoundError ∧
        end_log (main missing_input no_files 0%Z) = [Failed e]) ∧
  (fs dangling_output !! input_file seeded_run = Some (File table_text) ∧
   endswith (lower (input_file seeded_run)) ".csv" = true ∧
   read_csv_text table_text = Some table ∧
   NoDup (labels table) ∧
   (fs dangling_output !! output_file seeded_run = Some Locked ∨
    output_file seeded_run ∈ unwritable dangling_output) ∧
   ∃ df' g' log e,
     apply_randomization table (seed seeded_run) 0%Z [ReadOk (input_file seeded_run)]
     = inr (df', g', log) ∧
     to_csv df' (output_file seeded_run) dangling_output = inl e ∧
     main_try seeded_run dangling_output 0%Z = inl (e, log) ∧
     exn_type e = FileNotFoundError ∧
     end_log (main seeded_run dangling_output 0%Z) = log ++ [Failed e]) ∧
  (fs locked_output !! output_file seeded_run = Some Locked ∧
   ∃ df' g' log e,
     apply_randomization table (seed seeded_run) 0%Z [ReadOk (input_file seeded_run)]
     = inr (df', g', log) ∧
     to_csv df' (output_file seeded_run) locked_output = inl e ∧
     main_try seeded_run locked_output 0%Z = inl (e, log) ∧
     exn_type e = PermissionError ∧
     end_log (main seeded_run locked_output 0%Z) = log ++ [Unexpected e]).
Proof.
  assert (fs no_files !! input_file missing_input = None ∨
          fs no_files !! input_file missing_input = Some Dangling) as Hmissing
    by (left; reflexivity).
  assert (output_file seeded_run ∈ unwritable dangling_output) as Hdangling
    by (unfold dangling_output; simpl; by apply elem_of_singleton_2).
  split; [|split].
  - split; [exact Hmissing|].
    exact (proj1 (main_failure_report missing_input no_files 0%Z) Hmissing).
  - split; [reflexivity|]. split; [reflexivity|]. split; [reflexivity|].
    split; [exact Examples.table_labels_distinct|]. split; [by right|].
    destruct (main_failure_report seeded_run dangling_output 0%Z)
      as (_ & _ & _ & _ & _ & _ & Hwrite).
    destruct (Hwrite table_text table) as (df' & g' & log & e & Hrun & Hcsv & Htry & Hclass & Hlog);
      [reflexivity|reflexivity|reflexivity|exact Examples.table_labels_distinct
      |by right|].
    exists df', g', log, e. split; [exact Hrun|]. split; [exact Hcsv|].
    split; [exact Htry|]. split; [exact Hclass|].
    rewrite Hlog. change (exn_type e = FileNotFoundError) in Hclass.
    by rewrite bool_decide_eq_true_2.
  - split; [reflexivity|].
    destruct (main_failure_report seeded_run locked_output 0%Z)
      as (_ & _ & _ & _ & _ & _ & Hwrite).
    destruct (Hwrite table_text table) as (df' & g' & log & e & Hrun & Hcsv & Htry & Hclass & Hlog);
      [reflexivity|reflexivity|reflexivity|exact Examples.table_labels_distinct
      |left; reflexivity|].
    exists df', g', log, e. split; [exact Hrun|]. split; [exact Hcsv|].
    split; [exact Htry|]. split; [exact Hclass|].
    rewrite Hlog. change (exn_type e = PermissionError) in Hclass.
    rewrite bool_decide_eq_false_2; [done|]. by rewrite Hclass.
Defined.


Lemma main_reproducible_witness :
  seed seeded_run = Some 7%Z ∧ 7%Z ≠ 0%Z ∧
  main seeded_run one_file 0%Z = main seeded_run one_file 5%Z.
Proof.
  split; [reflexivity|]. split; [discriminate|].
  apply (main_reproducible seeded_run one_file 7 0%Z 5%Z); [reflexivity|discriminate].
Defined.

Lemma change_data_types_processed_witness :
  NoDup (labels table) ∧
  ∃ df' g' events,
    change_data_types table None 0%Z [] = inr (df', g', [] ++ events) ∧
    df_index df' = df_index table ∧
    Forall3 processed (df_columns table) (df_columns df') events.
Proof.
  split; [exact Examples.table_labels_distinct|].
  exact (change_data_types_processed table None 0%Z [] Examples.table_labels_distinct).
Defined.

Lemma change_data_types_log_witness :
  NoDup (labels table) ∧
  ∃ df' g' events,
    change_data_types table None 0%Z [] = inr (df', g', [] ++ events) ∧
    labels df' = labels table ∧
    event_column <$> events = Some <$> labels table ∧
    Forall (λ ev, level_of ev = INFO ∨ level_of ev = ERROR) events.
Proof.
  split; [exact Examples.table_labels_distinct|].
  exact (change_data_types_log table None 0%Z [] Examples.table_labels_distinct).
Defined.

Lemma numeric_column_converted_witness :
  NoDup (labels table) ∧
  df_columns table !! 0 = Some ("id", id_column) ∧
  py_in (py_dtype (s_dtype id_column)) numeric_types = true ∧
  ∃ df' g' events t s',
    change_data_types table None 0%Z [] = inr (df', g', [] ++ events) ∧
    df_columns df' !! 0 = Some ("id", s') ∧
    events !! 0 = Some (Converted "id" dt_int64 t) ∧
    ((t = py_str "string" ∧
      s' = {| s_dtype := dt_object;
              s_values := (λ v, VStr (py_repr v)) <$> s_values id_column |}) ∨
     (t = py_str "category" ∧
      s' = {| s_dtype := dt_category; s_values := s_values id_column |})).
Proof.
  split; [exact Examples.table_labels_distinct|].
  split; [reflexivity|]. split; [reflexivity|].
  apply (numeric_column_converted table None 0%Z [] 0 ("id", id_column)
           Examples.table_labels_distinct); reflexivity.
Defined.

Lemma header_only_labels_distinct : NoDup (labels header_only).
Proof.
  change (labels header_only) with ["a"; "b"].
  apply NoDup_cons. split; [|apply NoDup_singleton].
  by intros [= ]%list_elem_of_singleton.
Qed.

Lemma header_only_table_witness :
  NoDup (labels header_only) ∧
  Forall (λ c, s_values c.2 = []) (df_columns header_only) ∧
  ∃ df' g' events,
    change_data_types header_only None 0%Z [] = inr (df', g', [] ++ events) ∧
    Forall (λ c', s_values c'.2 = []) (df_columns df') ∧
    Forall (λ ev, level_of ev = INFO) events.
Proof.
  assert (Forall (λ c : string * Series, s_values c.2 = []) (df_columns header_only))
    as Hempty by by repeat constructor.
  split; [exact header_only_labels_distinct|]. split; [exact Hempty|].
  exact (header_only_table header_only None 0%Z [] header_only_labels_distinct Hempty).
Defined.

Lemma convert_raises_witness :
  ((py_eq np_int64 np_int64 = true ∧
    ∃ ns, to_numeric (s_values text_column_inf) = Some ns ∧
          Exists (λ n, infinite n = true) ns ∧
          int_casting_error = int_casting_error) ∧
   convert np_int64 text_column_inf = inl int_casting_error) ∧
  (((py_eq np_float64 np_int64 = true ∨ py_eq np_float64 np_float64 = true) ∧
    Exists (λ v, too_large v = true) (s_values huge_column) ∧
    overflow_error = overflow_error) ∧
   convert np_float64 huge_column = inl overflow_error).
Proof.
  assert (py_eq np_int64 np_int64 = true ∧
          ∃ ns, to_numeric (s_values text_column_inf) = Some ns ∧
                Exists (λ n, infinite n = true) ns ∧
                int_casting_error = int_casting_error) as Hcast.
  { split; [reflexivity|]. eexists. split; [reflexivity|]. split; [|reflexivity].
    apply Exists_cons_tl, Exists_cons_hd. reflexivity. }
  assert ((py_eq np_float64 np_int64 = true ∨ py_eq np_float64 np_float64 = true) ∧
          Exists (λ v, too_large v = true) (s_values huge_column) ∧
          overflow_error = overflow_error) as Hlarge.
  { split; [right; reflexivity|]. split; [|reflexivity].
    apply Exists_cons_hd. vm_compute. reflexivity. }
  split.
  - split; [exact Hcast|].
    exact (proj2 (convert_raises np_int64 text_column_inf int_casting_error)
             (or_intror Hcast)).
  - split; [exact Hlarge|].
    exact (proj2 (convert_raises np_float64 huge_column overflow_error)
             (or_introl Hlarge)).
Defined.

Lemma conversion_changes_dtype_witness :
  py_str "category" ∈ possible_types (py_dtype (s_dtype id_column)) ∧
  convert (py_str "category") id_column
  = inr {| s_dtype := dt_category; s_values := s_values id_column |} ∧
  (dt_category ≠ s_dtype id_column ∨
   (s_dtype id_column = dt_object ∧ py_str "category" = py_str "string"
    ∧ dt_category = dt_object)).
Proof.
  assert (py_str "category" ∈ possible_types (py_dtype (s_dtype id_column))) as Hin.
  { change (possible_types (py_dtype (s_dtype id_column)))
      with [py_str "string"; py_str "category"].
    apply list_elem_of_further, list_elem_of_here. }
  split; [exact Hin|]. split; [reflexivity|].
  exact (conversion_changes_dtype id_column
           {| s_dtype := dt_category; s_values := s_values id_column |}
           (py_str "category") Hin eq_refl).
Defined.

Lemma text_conversion_idempotent_witness :
  s_dtype name_column = dt_object ∧
  forallb is_text (s_values name_column) = true ∧
  convert (py_str "string") name_column = inr name_column.
Proof.
  split; [reflexivity|]. split; [reflexivity|].
  apply (proj2 (text_conversion_idempotent name_column)); reflexivity.
Defined.

Lemma integer_text_round_trip_witness :
  Forall (λ z, in_int64 z = true ∧ parse_number (pretty z) = Some (NInt z)) [1; 2]%Z ∧
  ∃ s', convert (py_str "string") {| s_dtype := dt_int64; s_values := VInt <$> [1; 2]%Z |}
        = inr s' ∧
        s_dtype s' = dt_object ∧
        convert np_int64 s'
        = inr {| s_dtype := dt_int64; s_values := VInt <$> [1; 2]%Z |}.
Proof.
  assert (Forall (λ z, in_int64 z = true ∧ parse_number (pretty z) = Some (NInt z))
            [1; 2]%Z) as Hzs.
  { repeat constructor; vm_compute; reflexivity. }
  split; [exact Hzs|]. exact (integer_text_round_trip [1; 2]%Z Hzs).
Defined.

Lemma pipeline_header_witness :
  NoDup (labels table) ∧
  ∃ df' g' events,
    apply_randomization table (Some 7%Z) 0%Z [] = inr (df', g', [] ++ events) ∧
    labels df' ≡ₚ column_name <$> seq 0 (length (df_columns table)) ∧
    NoDup (labels df') ∧
    length events = length (df_columns table) ∧
    Forall (λ ev, level_of ev = INFO ∨ level_of ev = ERROR) events ∧
    df_index df' = df_index table.
Proof.
  split; [exact Examples.table_labels_distinct|].
  exact (pipeline_header table (Some 7%Z) 0%Z [] Examples.table_labels_distinct).
Defined.


Lemma seed_coupling_witness :
  7%Z ≠ 0%Z ∧ NoDup (labels table) ∧
  labels (randomize_column_names table (Some 7%Z) 0%Z).1
  = column_name <$> seed_permutation 7 (length (df_columns table)) ∧
  df_columns (reorder_columns table (Some 7%Z) 3%Z).1
  = omap (λ i, df_columns table !! i) (seed_permutation 7 (length (df_columns table))).
Proof.
  assert (7%Z ≠ 0%Z) as Hseed by discriminate.
  split; [exact Hseed|]. split; [exact Examples.table_labels_distinct|].
  exact (proj2 (seed_coupling table 7 0%Z 3%Z Hseed Examples.table_labels_distinct)).
Defined.

Lemma small_tables_witness :
  length (df_columns one_column) ≤ 1 ∧
  labels (randomize_column_names one_column None 0%Z).1 = ["column_0"] ∧
  reorder_columns one_column None 0%Z = (one_column, 0%Z).
Proof.
  assert (length (df_columns one_column) ≤ 1) as Hlen by (simpl; lia).
  split; [exact Hlen|].
  destruct (small_tables one_column None 0%Z Hlen) as (_ & Hnames & _ & Hsame).
  split; [exact Hnames|exact Hsame].
Defined.
End Further.
